(** * Terminal service: PTY session registry, output scheduler and
      resize suppressor

    A shallow embedding of [apps/server/src/services/terminal-service.ts].
    The service is a single-threaded, event-driven object: its methods, the
    PTY callbacks registered by [createSession] and the timer callbacks run
    to completion one at a time.  The embedding passes the service state
    explicitly; session objects live in a store of their own because the
    closures created by [createSession] keep a reference to the session
    object after the registry has dropped it. *)

From Stdlib Require Import ZArith NArith List Ascii String Bool Lia.
From stdpp Require Import gmap list fin_maps.

Local Open Scope Z_scope.

(** ** JavaScript values used by the service *)

(** A JS string is a sequence of UTF-16 code units; [length], [slice],
    [startsWith] and [+] all work on code units. *)
Abbreviation code_unit := N.
Abbreviation jstring := (list code_unit).

Definition str (s : string) : jstring := map N_of_ascii (list_ascii_of_string s).

(** [number]: the values the limit can take in this module are what
    [parseInt] returns (an integer or NaN) and what the settings route
    hands to [setMaxSessions]. *)
Inductive number :=
  | Num (z : Z)
  | NaN.

Definition num_ge (a b : number) : bool :=
  match a, b with
  | Num x, Num y => y <=? x
  | _, _ => false
  end.

Definition num_le (a b : number) : bool :=
  match a, b with
  | Num x, Num y => x <=? y
  | _, _ => false
  end.

(** Relative index of [slice]: negative counts from the end, both clamped. *)
Definition relative_index (len k : Z) : Z :=
  if k <? 0 then Z.max (len + k) 0 else Z.min k len.

(** [s.slice(start)] and [s.slice(start, stop)]. *)
Definition slice (s : jstring) (start : Z) (stop : option Z) : jstring :=
  let len := Z.of_nat (length s) in
  let from := relative_index len start in
  let to := match stop with
            | None => len
            | Some e => relative_index len e
            end in
  take (Z.to_nat (Z.max (to - from) 0)) (drop (Z.to_nat from) s).

Fixpoint startsWith (s p : jstring) : bool :=
  match p, s with
  | [], _ => true
  | _ :: _, [] => false
  | c :: p', d :: s' => (c =? d)%N && startsWith s' p'
  end.

Fixpoint includes (s p : jstring) : bool :=
  startsWith s p ||
  match s with
  | [] => false
  | _ :: s' => includes s' p
  end.

(** WhiteSpace and LineTerminator code units of ECMAScript. *)
Definition is_whitespace (c : code_unit) : bool :=
  ((9 <=? c) && (c <=? 13) || (c =? 32) || (c =? 160) || (c =? 5760)
   || (8192 <=? c) && (c <=? 8202) || (c =? 8232) || (c =? 8233)
   || (c =? 8239) || (c =? 8287) || (c =? 12288) || (c =? 65279))%N.

Fixpoint trimStart (s : jstring) : jstring :=
  match s with
  | c :: s' => if is_whitespace c then trimStart s' else s
  | [] => []
  end.

Definition trimEnd (s : jstring) : jstring := rev (trimStart (rev s)).

Definition trim (s : jstring) : jstring := trimEnd (trimStart s).

(** [toLowerCase] on the Basic Latin letters; the needles searched for in
    [isWSL] are Basic Latin and no other code unit lowers into them. *)
Definition toLowerCase (s : jstring) : jstring :=
  map (fun c => if ((65 <=? c) && (c <=? 90))%N then (c + 32)%N else c) s.

Definition is_digit (c : code_unit) : bool := ((48 <=? c) && (c <=? 57))%N.

Fixpoint digits_value (acc : Z) (s : jstring) : Z :=
  match s with
  | c :: s' => if is_digit c then digits_value (10 * acc + (Z.of_N c - 48)) s' else acc
  | [] => acc
  end.

(** [parseInt(s, 10)]: leading white space, an optional sign, then the
    longest run of decimal digits; NaN when that run is empty. *)
Definition parseInt (s : jstring) : number :=
  let s := trimStart s in
  let '(neg, s) := match s with
                   | 45%N :: r => (true, r)
                   | 43%N :: r => (false, r)
                   | _ => (false, s)
                   end in
  match s with
  | c :: _ => if is_digit c
              then Num (if neg : bool then - digits_value 0 s else digits_value 0 s)
              else NaN
  | [] => NaN
  end.

(** [v || d] for an optional string: undefined and the empty string are falsy. *)
Definition or_else (v : option jstring) (d : jstring) : jstring :=
  match v with
  | Some (c :: r) => c :: r
  | _ => d
  end.

(** [n || d] for an optional number: undefined and 0 are falsy. *)
Definition num_or_else (v : option Z) (d : Z) : Z :=
  match v with
  | Some 0 | None => d
  | Some n => n
  end.

(** Calls that can throw either complete with a value or throw. *)
Inductive completion (A : Type) :=
  | Normal (a : A)
  | Thrown.
Arguments Normal {A} a.
Arguments Thrown {A}.

Definition try_catch {A} (body : completion A) (handler : completion A) : completion A :=
  match body with
  | Normal a => Normal a
  | Thrown => handler
  end.

Definition bind {A B} (c : completion A) (k : A -> completion B) : completion B :=
  match c with
  | Normal a => k a
  | Thrown => Thrown
  end.

(** ** Constants of the module *)

Definition MAX_SCROLLBACK_SIZE : Z := 50000.
Definition MIN_MAX_SESSIONS : Z := 1.
Definition MAX_MAX_SESSIONS : Z := 500.
Definition OUTPUT_THROTTLE_MS : Z := 4.
Definition OUTPUT_BATCH_SIZE : Z := 4096.

(** [let maxSessions = parseInt(process.env.TERMINAL_MAX_SESSIONS || "1000", 10)] *)
Definition startupMaxSessions (TERMINAL_MAX_SESSIONS : option jstring) : number :=
  parseInt (or_else TERMINAL_MAX_SESSIONS (str "1000")).

(** ** The host: platform, environment and file system as the service reads them *)

Inductive stat_result :=
  | StatDirectory   (* the path exists and [isDirectory()] holds *)
  | StatOther       (* the path exists and is something else *)
  | StatThrows.     (* [statSync] throws: ENOENT, EACCES, ... *)

Record Host := mkHost {
  platform : jstring;
  getenv : jstring -> option jstring;
  homedir : jstring;
  existsSync : jstring -> bool;
  statSync : jstring -> stat_result;
  readFileSync : jstring -> completion jstring
}.

Definition truthy (v : option jstring) : bool :=
  match v with
  | Some (_ :: _) => true
  | _ => false
  end.

Definition isWSL (h : Host) : bool :=
  match
    try_catch
      (if existsSync h (str "/proc/version")
       then bind (readFileSync h (str "/proc/version"))
              (fun content =>
                 let version := toLowerCase content in
                 Normal (Some (includes version (str "microsoft")
                               || includes version (str "wsl"))))
       else if truthy (getenv h (str "WSL_DISTRO_NAME")) || truthy (getenv h (str "WSLENV"))
            then Normal (Some true)
            else Normal None)
      (Normal None)
  with
  | Normal (Some b) => b
  | _ => false
  end.

Definition login : list jstring := [str "--login"].

Definition detectShell (h : Host) : jstring * list jstring :=
  if (if decide (platform h = str "linux") then isWSL h else false) then
    let userShell := or_else (getenv h (str "SHELL")) (str "/bin/bash") in
    if existsSync h userShell then (userShell, login) else (str "/bin/bash", login)
  else if decide (platform h = str "win32") then
    let pwsh := str "C:\Windows\System32\WindowsPowerShell\v1.0\powershell.exe" in
    let pwshCore := str "C:\Program Files\PowerShell\7\pwsh.exe" in
    if existsSync h pwshCore then (pwshCore, [])
    else if existsSync h pwsh then (pwsh, [])
    else (str "cmd.exe", [])
  else if decide (platform h = str "darwin") then
    match getenv h (str "SHELL") with
    | Some (c :: r) =>
        if existsSync h (c :: r) then (c :: r, login)
        else if existsSync h (str "/bin/zsh") then (str "/bin/zsh", login)
        else (str "/bin/bash", login)
    | _ =>
        if existsSync h (str "/bin/zsh") then (str "/bin/zsh", login)
        else (str "/bin/bash", login)
    end
  else
    match getenv h (str "SHELL") with
    | Some (c :: r) =>
        if existsSync h (c :: r) then (c :: r, login)
        else if existsSync h (str "/bin/bash") then (str "/bin/bash", login)
        else (str "/bin/sh", [])
    | _ =>
        if existsSync h (str "/bin/bash") then (str "/bin/bash", login)
        else (str "/bin/sh", [])
    end.

(** [stat.isDirectory()] of [fs.statSync(p)]. *)
Definition statSync_isDirectory (h : Host) (p : jstring) : completion bool :=
  match statSync h p with
  | StatDirectory => Normal true
  | StatOther => Normal false
  | StatThrows => Thrown
  end.

(** The path handed to [statSync]: trimmed, and a doubled leading slash
    collapsed unless the path starts with [//wsl]. *)
Definition cleanPath (requestedCwd : jstring) : jstring :=
  let cwd := trim requestedCwd in
  if startsWith cwd (str "//") && negb (startsWith cwd (str "//wsl"))
  then slice cwd 1 None
  else cwd.

Definition resolveWorkingDirectory (h : Host) (requestedCwd : option jstring) : completion jstring :=
  let homeDir := homedir h in
  match requestedCwd with
  | None | Some [] => Normal homeDir
  | Some (c :: r) =>
      let cwd := cleanPath (c :: r) in
      try_catch
        (bind (statSync_isDirectory h cwd)
           (fun isDirectory => if isDirectory then Normal cwd else Normal homeDir))
        (Normal homeDir)
  end.

(** ** Sessions, timers and the service state *)

Definition loc := nat.          (* reference to a session object *)
Definition timer_id := nat.     (* a [NodeJS.Timeout] handle *)
Definition callback := nat.     (* a subscriber function, by identity *)
Definition pty_handle := nat.   (* a spawned [pty.IPty] *)

Record TerminalSession := mkSession {
  id : jstring;
  pty : pty_handle;
  cwd : jstring;
  createdAt : Z;
  shell : jstring;
  scrollbackBuffer : jstring;
  outputBuffer : jstring;
  flushTimeout : option timer_id;
  resizeInProgress : bool;
  resizeDebounceTimeout : option timer_id
}.

Definition set_scrollbackBuffer (v : jstring) (s : TerminalSession) : TerminalSession :=
  mkSession (id s) (pty s) (cwd s) (createdAt s) (shell s) v (outputBuffer s)
    (flushTimeout s) (resizeInProgress s) (resizeDebounceTimeout s).

Definition set_outputBuffer (v : jstring) (s : TerminalSession) : TerminalSession :=
  mkSession (id s) (pty s) (cwd s) (createdAt s) (shell s) (scrollbackBuffer s) v
    (flushTimeout s) (resizeInProgress s) (resizeDebounceTimeout s).

Definition set_flushTimeout (v : option timer_id) (s : TerminalSession) : TerminalSession :=
  mkSession (id s) (pty s) (cwd s) (createdAt s) (shell s) (scrollbackBuffer s)
    (outputBuffer s) v (resizeInProgress s) (resizeDebounceTimeout s).

Definition set_resizeInProgress (v : bool) (s : TerminalSession) : TerminalSession :=
  mkSession (id s) (pty s) (cwd s) (createdAt s) (shell s) (scrollbackBuffer s)
    (outputBuffer s) (flushTimeout s) v (resizeDebounceTimeout s).

Definition set_resizeDebounceTimeout (v : option timer_id) (s : TerminalSession) : TerminalSession :=
  mkSession (id s) (pty s) (cwd s) (createdAt s) (shell s) (scrollbackBuffer s)
    (outputBuffer s) (flushTimeout s) (resizeInProgress s) v.

Record TerminalOptions := mkOptions {
  opt_cwd : option jstring;
  opt_shell : option jstring;
  opt_cols : option Z;
  opt_rows : option Z
}.

(** What a timer runs when it fires; both closures hold the session object. *)
Inductive task :=
  | FlushTask (l : loc)     (* [flushOutput] of the session at [l] *)
  | SettleTask (l : loc).   (* the resize-settle arrow function *)

(** Calls the service makes on its collaborators, oldest first. *)
Inductive effect :=
  | CallData (cb : callback) (sessionId data : jstring)
  | EmitData (sessionId data : jstring)
  | CallExit (cb : callback) (sessionId : jstring) (exitCode : Z)
  | EmitExit (sessionId : jstring) (exitCode : Z)
  | PtySpawn (sh : jstring) (args : list jstring) (cols rows : Z) (dir : jstring)
  | PtyWrite (p : pty_handle) (data : jstring)
  | PtyResize (p : pty_handle) (cols rows : Z)
  | PtyKill (p : pty_handle) (signal : option jstring).

Record Service := mkService {
  maxSessions : number;                (* the module-level [let] *)
  sessions : gmap jstring loc;         (* [Map<string, TerminalSession>] *)
  dataCallbacks : list callback;       (* [Set], in insertion order *)
  exitCallbacks : list callback;
  objs : gmap loc TerminalSession;     (* the session objects *)
  timers : gmap timer_id task;         (* timers armed in the event loop *)
  next_loc : loc;
  next_timer : timer_id;
  effects : list effect
}.

Definition set_maxSessions (v : number) (st : Service) : Service :=
  mkService v (sessions st) (dataCallbacks st) (exitCallbacks st) (objs st)
    (timers st) (next_loc st) (next_timer st) (effects st).

Definition set_sessions (v : gmap jstring loc) (st : Service) : Service :=
  mkService (maxSessions st) v (dataCallbacks st) (exitCallbacks st) (objs st)
    (timers st) (next_loc st) (next_timer st) (effects st).

Definition set_dataCallbacks (v : list callback) (st : Service) : Service :=
  mkService (maxSessions st) (sessions st) v (exitCallbacks st) (objs st)
    (timers st) (next_loc st) (next_timer st) (effects st).

Definition set_exitCallbacks (v : list callback) (st : Service) : Service :=
  mkService (maxSessions st) (sessions st) (dataCallbacks st) v (objs st)
    (timers st) (next_loc st) (next_timer st) (effects st).

Definition set_timers (v : gmap timer_id task) (st : Service) : Service :=
  mkService (maxSessions st) (sessions st) (dataCallbacks st) (exitCallbacks st) (objs st)
    v (next_loc st) (next_timer st) (effects st).

(** Write the session object at [l]. *)
Definition store (l : loc) (s : TerminalSession) (st : Service) : Service :=
  mkService (maxSessions st) (sessions st) (dataCallbacks st) (exitCallbacks st)
    (<[l := s]> (objs st)) (timers st) (next_loc st) (next_timer st) (effects st).

(** Allocate a new session object. *)
Definition alloc (s : TerminalSession) (st : Service) : loc * Service :=
  (next_loc st,
   mkService (maxSessions st) (sessions st) (dataCallbacks st) (exitCallbacks st)
     (<[next_loc st := s]> (objs st)) (timers st) (S (next_loc st)) (next_timer st)
     (effects st)).

Definition perform (es : list effect) (st : Service) : Service :=
  mkService (maxSessions st) (sessions st) (dataCallbacks st) (exitCallbacks st) (objs st)
    (timers st) (next_loc st) (next_timer st) (effects st ++ es).

Definition setTimeout (k : task) (st : Service) : timer_id * Service :=
  (next_timer st,
   mkService (maxSessions st) (sessions st) (dataCallbacks st) (exitCallbacks st) (objs st)
     (<[next_timer st := k]> (timers st)) (next_loc st) (S (next_timer st)) (effects st)).

Definition clearTimeout (t : timer_id) (st : Service) : Service :=
  set_timers (delete t (timers st)) st.

(** [new TerminalService()] in a process started with the given
    [TERMINAL_MAX_SESSIONS]. *)
Definition newService (TERMINAL_MAX_SESSIONS : option jstring) : Service :=
  mkService (startupMaxSessions TERMINAL_MAX_SESSIONS) ∅ [] [] ∅ ∅ 0%nat 0%nat [].

(** [this.sessions.get(sessionId)], with the object it refers to. *)
Definition getSession (sessionId : jstring) (st : Service) : option (loc * TerminalSession) :=
  match sessions st !! sessionId with
  | Some l => match objs st !! l with
              | Some s => Some (l, s)
              | None => None
              end
  | None => None
  end.

Definition getSessionCount (st : Service) : Z := Z.of_nat (size (sessions st)).

Definition getMaxSessions (st : Service) : number := maxSessions st.

Definition setMaxSessions (limit : number) (st : Service) : Service :=
  if num_ge limit (Num MIN_MAX_SESSIONS) && num_le limit (Num MAX_MAX_SESSIONS)
  then set_maxSessions limit st
  else st.

(** ** Output scheduler *)

(** [this.dataCallbacks.forEach(cb => cb(id, data)); this.emit("data", id, data)] *)
Definition notifyData (sessionId data : jstring) (st : Service) : Service :=
  perform (map (fun cb => CallData cb sessionId data) (dataCallbacks st)
           ++ [EmitData sessionId data]) st.

Definition notifyExit (sessionId : jstring) (exitCode : Z) (st : Service) : Service :=
  perform (map (fun cb => CallExit cb sessionId exitCode) (exitCallbacks st)
           ++ [EmitExit sessionId exitCode]) st.

(** The [flushOutput] closure of the session object at [l]. *)
Definition flushOutput (l : loc) (st : Service) : Service :=
  match objs st !! l with
  | None => st
  | Some session =>
      if (length (outputBuffer session) =? 0)%nat then st
      else
        let dataToSend := outputBuffer session in
        if OUTPUT_BATCH_SIZE <? Z.of_nat (length dataToSend) then
          let dataToSend := slice (outputBuffer session) 0 (Some OUTPUT_BATCH_SIZE) in
          let session :=
            set_outputBuffer (slice (outputBuffer session) OUTPUT_BATCH_SIZE None) session in
          let '(t, st) := setTimeout (FlushTask l) st in
          let session := set_flushTimeout (Some t) session in
          notifyData (id session) dataToSend (store l session st)
        else
          let session := set_flushTimeout None (set_outputBuffer [] session) in
          notifyData (id session) dataToSend (store l session st)
  end.

(** The handler passed to [ptyProcess.onData] for the session object at [l]. *)
Definition ptyData (l : loc) (data : jstring) (st : Service) : Service :=
  match objs st !! l with
  | None => st
  | Some session =>
      if resizeInProgress session then st
      else
        let session := set_scrollbackBuffer (scrollbackBuffer session ++ data) session in
        let session :=
          if MAX_SCROLLBACK_SIZE <? Z.of_nat (length (scrollbackBuffer session))
          then set_scrollbackBuffer
                 (slice (scrollbackBuffer session) (- MAX_SCROLLBACK_SIZE) None) session
          else session in
        let session := set_outputBuffer (outputBuffer session ++ data) session in
        match flushTimeout session with
        | None =>
            let '(t, st) := setTimeout (FlushTask l) st in
            store l (set_flushTimeout (Some t) session) st
        | Some _ => store l session st
        end
  end.

(** The handler passed to [ptyProcess.onExit]. *)
Definition ptyExit (l : loc) (exitCode : Z) (st : Service) : Service :=
  match objs st !! l with
  | None => st
  | Some session =>
      let st := set_sessions (delete (id session) (sessions st)) st in
      notifyExit (id session) exitCode st
  end.

(** The arrow function armed by [resize]. *)
Definition settle (l : loc) (st : Service) : Service :=
  match objs st !! l with
  | None => st
  | Some session =>
      store l (set_resizeDebounceTimeout None (set_resizeInProgress false session)) st
  end.

(** The event loop runs an armed timer: it leaves the timer table, then
    its callback runs.  A handle that is not armed does nothing. *)
Definition fireTimer (t : timer_id) (st : Service) : Service :=
  match timers st !! t with
  | None => st
  | Some k =>
      let st := clearTimeout t st in
      match k with
      | FlushTask l => flushOutput l st
      | SettleTask l => settle l st
      end
  end.

(** ** Registry operations *)

(** What one [createSession] call reads from outside the service. *)
Record CreateInput := mkCreateInput {
  host : Host;
  options : TerminalOptions;
  now : jstring;                    (* [Date.now()], in decimal *)
  random36 : jstring;               (* [Math.random().toString(36).substr(2, 9)] *)
  created : Z;                      (* [new Date()] *)
  spawn : completion pty_handle     (* [pty.spawn] returns a process or throws *)
}.

(** [createSession]: [Normal None] is the [null] of a refused call,
    [Normal (Some l)] the new session object, [Thrown] an exception of
    [pty.spawn] passed on to the caller. *)
Definition createSession (inp : CreateInput) (st : Service)
  : completion (option loc) * Service :=
  if num_ge (Num (getSessionCount st)) (maxSessions st) then (Normal None, st)
  else
    let id := str "term-" ++ now inp ++ str "-" ++ random36 inp in
    let '(detectedShell, shellArgs) := detectShell (host inp) in
    let shell := or_else (opt_shell (options inp)) detectedShell in
    match resolveWorkingDirectory (host inp) (opt_cwd (options inp)) with
    | Thrown => (Thrown, st)
    | Normal cwd =>
        match spawn inp with
        | Thrown => (Thrown, st)
        | Normal ptyProcess =>
            let st := perform [PtySpawn shell shellArgs
                                 (num_or_else (opt_cols (options inp)) 80)
                                 (num_or_else (opt_rows (options inp)) 24) cwd] st in
            let session :=
              mkSession id ptyProcess cwd (created inp) shell [] [] None false None in
            let '(l, st) := alloc session st in
            (Normal (Some l), set_sessions (<[id := l]> (sessions st)) st)
        end
    end.

Definition write (ptyWrite : completion unit) (sessionId data : jstring) (st : Service)
  : completion bool * Service :=
  match getSession sessionId st with
  | None => (Normal false, st)
  | Some (_, session) =>
      match ptyWrite with
      | Thrown => (Thrown, st)
      | Normal _ => (Normal true, perform [PtyWrite (pty session) data] st)
      end
  end.

(** [resize]; [ptyResize] says whether [session.pty.resize] returns or throws. *)
Definition resize (ptyResize : completion unit) (sessionId : jstring) (cols rows : Z)
    (suppressOutput : bool) (st : Service) : bool * Service :=
  match getSession sessionId st with
  | None => (false, st)
  | Some (l, session) =>
      (* try *)
      let '(session, st) :=
        if suppressOutput then
          let session := set_resizeInProgress true session in
          (session,
           match resizeDebounceTimeout session with
           | Some t => clearTimeout t (store l session st)
           | None => store l session st
           end)
        else (session, st) in
      match ptyResize with
      | Normal _ =>
          let st := perform [PtyResize (pty session) cols rows] st in
          if suppressOutput then
            let '(t, st) := setTimeout (SettleTask l) st in
            (true, store l (set_resizeDebounceTimeout (Some t) session) st)
          else (true, st)
      | Thrown =>
          (* catch *)
          (false, store l (set_resizeInProgress false session) st)
      end
  end.

(** [killSession]; [ptyKill] says whether [session.pty.kill] returns or throws. *)
Definition killSession (ptyKill : completion unit) (sessionId : jstring) (st : Service)
  : bool * Service :=
  match getSession sessionId st with
  | None => (false, st)
  | Some (l, session) =>
      (* try *)
      let '(session, st) :=
        match flushTimeout session with
        | Some t => (set_flushTimeout None session, clearTimeout t st)
        | None => (session, st)
        end in
      let '(session, st) :=
        match resizeDebounceTimeout session with
        | Some t => (set_resizeDebounceTimeout None session, clearTimeout t st)
        | None => (session, st)
        end in
      let st := store l session st in
      match ptyKill with
      | Normal _ =>
          let st := perform [PtyKill (pty session) (Some (str "SIGKILL"))] st in
          (true, set_sessions (delete sessionId (sessions st)) st)
      | Thrown =>
          (* catch *)
          (false, set_sessions (delete sessionId (sessions st)) st)
      end
  end.

(** [s || null] *)
Definition or_null (s : jstring) : option jstring :=
  match s with
  | [] => None
  | _ :: _ => Some s
  end.

Definition getScrollback (sessionId : jstring) (st : Service) : option jstring :=
  match getSession sessionId st with
  | Some (_, session) => or_null (scrollbackBuffer session)
  | None => None
  end.

Definition getScrollbackAndClearPending (sessionId : jstring) (st : Service)
  : option jstring * Service :=
  match getSession sessionId st with
  | None => (None, st)
  | Some (l, session) =>
      let session := set_outputBuffer [] session in
      let '(session, st) :=
        match flushTimeout session with
        | Some t => (set_flushTimeout None session, clearTimeout t st)
        | None => (session, st)
        end in
      (or_null (scrollbackBuffer session), store l session st)
  end.

(** [Set.add] and [Set.delete] on the subscriber sets. *)
Definition set_add (cb : callback) (s : list callback) : list callback :=
  if decide (cb ∈ s) then s else s ++ [cb].

Definition set_delete (cb : callback) (s : list callback) : list callback :=
  filter (fun c => c ≠ cb) s.

Definition onData (cb : callback) (st : Service) : Service :=
  set_dataCallbacks (set_add cb (dataCallbacks st)) st.

Definition offData (cb : callback) (st : Service) : Service :=
  set_dataCallbacks (set_delete cb (dataCallbacks st)) st.

Definition onExit (cb : callback) (st : Service) : Service :=
  set_exitCallbacks (set_add cb (exitCallbacks st)) st.

Definition offExit (cb : callback) (st : Service) : Service :=
  set_exitCallbacks (set_delete cb (exitCallbacks st)) st.

(** ** Runs of the service

    One event is one callback run to completion: a method call from a
    route, a PTY notification, or a timer firing. *)
Inductive event :=
  | Create (inp : CreateInput)
  | Write (ptyWrite : completion unit) (sessionId data : jstring)
  | Resize (ptyResize : completion unit) (sessionId : jstring) (cols rows : Z)
      (suppressOutput : bool)
  | Kill (ptyKill : completion unit) (sessionId : jstring)
  | ClearPending (sessionId : jstring)
  | SetMax (limit : number)
  | OnData (cb : callback)
  | OffData (cb : callback)
  | OnExit (cb : callback)
  | OffExit (cb : callback)
  | Output (l : loc) (data : jstring)
  | Exit (l : loc) (exitCode : Z)
  | Timer (t : timer_id).

Definition step (e : event) (st : Service) : Service :=
  match e with
  | Create inp => snd (createSession inp st)
  | Write w sid data => snd (write w sid data st)
  | Resize r sid cols rows sup => snd (resize r sid cols rows sup st)
  | Kill k sid => snd (killSession k sid st)
  | ClearPending sid => snd (getScrollbackAndClearPending sid st)
  | SetMax limit => setMaxSessions limit st
  | OnData cb => onData cb st
  | OffData cb => offData cb st
  | OnExit cb => onExit cb st
  | OffExit cb => offExit cb st
  | Output l data => ptyData l data st
  | Exit l code => ptyExit l code st
  | Timer t => fireTimer t st
  end.

Definition run (es : list event) (st : Service) : Service :=
  fold_left (fun st e => step e st) es st.

(** ** Views used in the statements *)

(** The [(sessionId, data)] calls a data subscriber has received. *)
Definition received (cb : callback) (es : list effect) : list (jstring * jstring) :=
  omap (fun e => match e with
                 | CallData c sid data => if decide (c = cb) then Some (sid, data) else None
                 | _ => None
                 end) es.

(** Is the handle armed in the event loop? *)
Definition armed (t : option timer_id) (st : Service) : bool :=
  match t with
  | Some t => bool_decide (is_Some (timers st !! t))
  | None => false
  end.

(** The range test of [setMaxSessions], as a predicate on limits. *)
Definition in_valid_range (limit : number) : bool :=
  num_ge limit (Num MIN_MAX_SESSIONS) && num_le limit (Num MAX_MAX_SESSIONS).

(** The calls one delivery of each chunk makes: every data subscriber in
    turn, then the ["data"] listeners. *)
Definition deliveries (subscribers : list callback) (sessionId : jstring)
    (chunks : list jstring) : list effect :=
  flat_map (fun chunk => map (fun cb => CallData cb sessionId chunk) subscribers
                         ++ [EmitData sessionId chunk]) chunks.

(** Runs in which the only events are output of the session object at [l]
    and firings of flush timers armed for it: what can happen to a session
    between a suppressing [resize] and its settle timer. *)
Inductive window (l : loc) : Service -> list event -> Service -> Prop :=
  | window_done st :
      window l st [] st
  | window_output st data es st' :
      window l (ptyData l data st) es st' ->
      window l st (Output l data :: es) st'
  | window_flush st t es st' :
      timers st !! t = Some (FlushTask l) ->
      window l (fireTimer t st) es st' ->
      window l st (Timer t :: es) st'.

(** The [n] most recent code units of [s]. *)
Definition most_recent (n : nat) (s : jstring) : jstring := drop (length s - n) s.

(** ** Shutdown *)

(** The body of the [forEach] in [cleanup] for one registry key. *)
Definition cleanup_entry (ptyKill : pty_handle -> completion unit)
    (st : Service) (sessionId : jstring) : Service :=
  match getSession sessionId st with
  | None => st
  | Some (_, session) =>
      (* try *)
      let st :=
        match flushTimeout session with
        | Some t => clearTimeout t st
        | None => st
        end in
      let st :=
        match ptyKill (pty session) with
        | Normal _ => perform [PtyKill (pty session) None] st
        | Thrown => st    (* catch: ignored *)
        end in
      set_sessions (delete sessionId (sessions st)) st
  end.

(** The keys [this.sessions.forEach] visits: every key of the registry.
    [Map] iterates in insertion order, which [sessions] does not record, so
    [precedence] supplies it: the registered keys it lists come first, in
    its order, and the registered keys it does not list follow. *)
Definition visited_keys (precedence : list jstring) (st : Service) : list jstring :=
  filter (fun k => is_Some (sessions st !! k)) precedence
  ++ filter (fun k => k ∉ precedence) ((map_to_list (sessions st)).*1).

(** [cleanup]; [ptyKill] says for each process whether [kill] returns or
    throws. *)
Definition cleanup (ptyKill : pty_handle -> completion unit) (precedence : list jstring)
    (st : Service) : Service :=
  fold_left (cleanup_entry ptyKill) (visited_keys precedence st) st.

(** ** Predicates used in the statements *)

(** Every operation that takes a session id answers "not found" for
    [sessionId] and leaves the service as it is. *)
Definition not_found (sessionId : jstring) (st : Service) : Prop :=
  (forall w data, write w sessionId data st = (Normal false, st)) /\
  (forall r cols rows suppressOutput,
     resize r sessionId cols rows suppressOutput st = (false, st)) /\
  (forall k, killSession k sessionId st = (false, st)) /\
  getScrollback sessionId st = None /\
  getScrollbackAndClearPending sessionId st = (None, st).

(** The chunks of the output events of [l] in a list of events. *)
Definition chunks_of (l : loc) (es : list event) : list jstring :=
  omap (fun e => match e with
                 | Output l' data => if decide (l' = l) then Some data else None
                 | _ => None
                 end) es.

(** ** Invariants of the states the service reaches *)

(** Session objects sit below the allocation mark. *)
Definition objects_allocated (st : Service) : Prop :=
  forall l s, objs st !! l = Some s -> (l < next_loc st)%nat.

(** The session object a timer's closure refers to holds the timer's
    handle in the field for that purpose. *)
Definition owns (st : Service) (t : timer_id) (k : task) : Prop :=
  match k with
  | FlushTask l => exists s, objs st !! l = Some s /\ flushTimeout s = Some t
  | SettleTask l => exists s, objs st !! l = Some s /\ resizeDebounceTimeout s = Some t
  end.

Definition timers_tracked (st : Service) : Prop :=
  forall t k, timers st !! t = Some k -> (t < next_timer st)%nat /\ owns st t k.

(** A registry entry refers to a session object that carries the key as
    its id. *)
Definition registry_consistent (st : Service) : Prop :=
  forall sid l, sessions st !! sid = Some l ->
    exists s, objs st !! l = Some s /\ id s = sid.

(** Handles stored in session objects were issued by [setTimeout], and a
    settle handle, armed or stale, never names another timer. *)
Definition handles_issued (st : Service) : Prop :=
  forall l s, objs st !! l = Some s ->
    (forall t, flushTimeout s = Some t -> (t < next_timer st)%nat) /\
    (forall t, resizeDebounceTimeout s = Some t ->
       (t < next_timer st)%nat /\
       forall k, timers st !! t = Some k -> k = SettleTask l).

(** A stored flush handle is armed and there is something to flush. *)
Definition flush_live (st : Service) : Prop :=
  forall l s t, objs st !! l = Some s -> flushTimeout s = Some t ->
    outputBuffer s <> [] /\ timers st !! t = Some (FlushTask l).

(** A registered session with pending output has a flush handle. *)
Definition pending_scheduled (st : Service) : Prop :=
  forall sid l s, sessions st !! sid = Some l -> objs st !! l = Some s ->
    outputBuffer s <> [] -> is_Some (flushTimeout s).

(** No scrollback is longer than [MAX_SCROLLBACK_SIZE]. *)
Definition scrollback_bounded (st : Service) : Prop :=
  forall l s, objs st !! l = Some s ->
    Z.of_nat (length (scrollbackBuffer s)) <= MAX_SCROLLBACK_SIZE.

(** Events that leave the session limit alone. *)
Definition keeps_limit (e : event) : Prop :=
  match e with
  | SetMax limit => in_valid_range limit = false
  | _ => True
  end.

(** Output events carry at least one code unit. *)
Definition nonempty_output (e : event) : Prop :=
  match e with
  | Output _ data => data <> []
  | _ => True
  end.

(** ** Sample data for the closed instances *)

Definition sample_host : Host :=
  mkHost (str "linux") (fun _ => None) (str "/home/dev") (fun _ => false)
    (fun p => if decide (p = str "/srv/app") then StatDirectory else StatThrows)
    (fun _ => Thrown).

Definition sample_input (stamp : string) (p : pty_handle) : CreateInput :=
  mkCreateInput sample_host (mkOptions None None None None)
    (str stamp) (str "k3x9q0a1z") 0 (Normal p).

Definition sample_id : jstring := str "term-1700000000000-k3x9q0a1z".

(** One data subscriber, one exit subscriber, one session just created. *)
Definition sample_service : Service :=
  run [OnData 7%nat; OnExit 9%nat; Create (sample_input "1700000000000" 11%nat)]
    (newService None).

Definition sample_session : TerminalSession :=
  mkSession sample_id 11%nat (str "/home/dev") 0 (str "/bin/sh") [] [] None false None.

(** ** Proof automation *)

(** Case analysis on every [match] and [if] of an unfolded operation,
    innermost scrutinee first. *)
Ltac split_cases :=
  repeat match goal with
         | |- context [match ?x with _ => _ end] =>
             lazymatch x with
             | context [match _ with _ => _ end] => fail
             | _ => destruct x eqn:?; simpl
             end
         end.

Ltac unfold_ops :=
  unfold createSession, write, resize, killSession, getScrollbackAndClearPending,
    setMaxSessions, onData, offData, onExit, offExit, ptyData, ptyExit, fireTimer,
    flushOutput, settle, notifyData, notifyExit, clearTimeout, setTimeout, alloc,
    store, perform, set_sessions, set_timers, set_dataCallbacks, set_exitCallbacks,
    set_maxSessions.

(** Tactics for the invariants: equations of the registry and of the two
    maps are split into their cases, and the invariant of the state before
    is applied to every object and timer in sight. *)
Ltac session_facts :=
  repeat match goal with
         | H : getSession _ _ = Some (_, _) |- _ =>
             let H1 := fresh in
             let H2 := fresh in
             unfold getSession in H;
             match type of H with
             | match ?a with _ => _ end = _ =>
                 destruct a eqn:H1; [|discriminate H];
                 match type of H with
                 | match ?b with _ => _ end = _ =>
                     destruct b eqn:H2; [|discriminate H];
                     injection H as <- <-
                 end
             end
         end.

Ltac lookup_cases H :=
  repeat first [ apply lookup_insert_Some in H as [[<- <-]|[? H]]
               | apply lookup_delete_Some in H as [? H] ].

Ltac goal_lookup :=
  repeat match goal with
         | |- context [<[?a := _]> _ !! ?a] => rewrite lookup_insert_eq
         | |- context [<[?a := _]> _ !! ?b] =>
             destruct (decide (a = b)) as [->|?];
             [rewrite lookup_insert_eq | rewrite lookup_insert_ne by assumption]
         end.

Ltac timer_lookup :=
  repeat match goal with
         | |- context [delete ?u _ !! ?t] =>
             let E := fresh "E" in
             destruct (decide (u = t)) as [E|?];
             [rewrite <- E, lookup_delete_eq
             |rewrite lookup_delete_ne by assumption]
         | |- context [<[?u := _]> _ !! ?u] => rewrite lookup_insert_eq
         | |- context [<[?u := _]> _ !! ?t] =>
             let E := fresh "E" in
             destruct (decide (u = t)) as [E|?];
             [rewrite <- E, lookup_insert_eq
             |rewrite lookup_insert_ne by assumption]
         end.

Ltac owner_facts Ht :=
  repeat match goal with
         | H : timers _ !! _ = Some _ |- _ =>
             let Hlt := fresh "Hlt" in
             let Hown := fresh "Hown" in
             destruct (Ht _ _ H) as [Hlt Hown]; revert H
         end; intros;
  unfold owns in *;
  repeat match goal with
         | H : match ?k with FlushTask _ => _ | SettleTask _ => _ end |- _ => destruct k
         | H : exists s, _ /\ _ |- _ => destruct H as (? & ? & ?)
         end.

Ltac handle_facts Hh :=
  repeat match goal with
         | H : objs _ !! _ = Some _ |- _ =>
             let Hf := fresh "Hf" in
             let Hr := fresh "Hr" in
             pose proof (Hh _ _ H) as [Hf Hr]; revert H
         end; intros.

Ltac live_facts Hl :=
  repeat match goal with
         | H : objs _ !! ?l = Some ?s, Hx : flushTimeout ?s = Some ?t |- _ =>
             lazymatch goal with
             | _ : timers _ !! t = Some (FlushTask l) |- _ => fail
             | _ => let A := fresh "Hne" in
                    let B := fresh "Harm" in
                    destruct (Hl _ _ _ H Hx) as [A B]
             end
         end.

Ltac use_handles :=
  repeat match goal with
         | H : forall t, ?h = Some t -> _, Hx : ?h = Some ?u |- _ =>
             let P := fresh in pose proof (H _ Hx) as P; clear H
         end;
  repeat match goal with H : _ /\ _ |- _ => destruct H end.

Ltac clash :=
  exfalso; subst;
  first [ lia
        | congruence
        | match goal with
          | H : forall k, timers _ !! ?t = Some k -> k = _, H' : timers _ !! ?t = Some _ |- _ =>
              specialize (H _ H'); congruence
          end
        | match goal with
          | Hb : (length (outputBuffer _) =? 0)%nat = true |- _ =>
              apply Nat.eqb_eq, length_zero_iff_nil in Hb; simplify_eq; congruence
          end ].

(** ** Basic facts about the JS string operations *)

Section Slices.
Implicit Types s : jstring.

Lemma slice_prefix s (n : Z) :
  0 <= n -> slice s 0 (Some n) = take (Z.to_nat n) s.
Proof.
  intros Hn. unfold slice, relative_index.
  destruct (0 <? 0) eqn:E0; [discriminate|].
  destruct (n <? 0) eqn:En; [apply Z.ltb_lt in En; lia|].
  rewrite (Z.min_l 0) by lia.
  change (drop (Z.to_nat 0) s) with s. rewrite Z.sub_0_r.
  destruct (Z.le_gt_cases n (Z.of_nat (length s))) as [Hle|Hgt].
  - rewrite Z.min_l, Z.max_l by lia. reflexivity.
  - rewrite Z.min_r, Z.max_l by lia. rewrite Nat2Z.id.
    rewrite (take_ge s (length s)) by lia.
    rewrite (take_ge s (Z.to_nat n)) by lia. reflexivity.
Qed.

Lemma slice_suffix s (n : Z) :
  0 <= n -> slice s n None = drop (Z.to_nat n) s.
Proof.
  intros Hn. unfold slice, relative_index.
  destruct (n <? 0) eqn:En; [apply Z.ltb_lt in En; lia|].
  destruct (Z.le_gt_cases n (Z.of_nat (length s))) as [Hle|Hgt].
  - rewrite Z.min_l by lia. apply take_ge. rewrite length_drop. lia.
  - rewrite Z.min_r by lia. rewrite Nat2Z.id, Z.sub_diag. simpl.
    rewrite (drop_ge s (length s)) by lia.
    rewrite (drop_ge s (Z.to_nat n)) by lia. reflexivity.
Qed.

Lemma slice_last s (n : Z) :
  0 < n -> slice s (- n) None = drop (length s - Z.to_nat n) s.
Proof.
  intros Hn. unfold slice, relative_index.
  destruct (- n <? 0) eqn:En; [|apply Z.ltb_ge in En; lia].
  replace (Z.to_nat (Z.max (Z.of_nat (length s) + - n) 0))
    with (length s - Z.to_nat n)%nat by lia.
  apply take_ge. rewrite length_drop. lia.
Qed.
End Slices.

(** ** The primitives on concrete inputs *)

Example parseInt_default : parseInt (str "1000") = Num 1000.
Proof. reflexivity. Qed.

Example parseInt_prefix : parseInt (str "  -12px") = Num (-12).
Proof. reflexivity. Qed.

Example parseInt_no_digits : parseInt (str "many") = NaN.
Proof. reflexivity. Qed.

Example startup_from_environment : startupMaxSessions (Some (str "40")) = Num 40.
Proof. reflexivity. Qed.

Example startup_empty_variable : startupMaxSessions (Some []) = Num 1000.
Proof. reflexivity. Qed.

Example slice_negative : slice (str "abcdef") (-4) None = str "cdef".
Proof. reflexivity. Qed.

Example slice_negative_short : slice (str "ab") (-4) None = str "ab".
Proof. reflexivity. Qed.

Example slice_range : slice (str "abcdef") 0 (Some 4) = str "abcd".
Proof. reflexivity. Qed.

Example cleanPath_double_slash : cleanPath (str "  //srv/app ") = str "/srv/app".
Proof. reflexivity. Qed.

Example cleanPath_wsl : cleanPath (str "//wsl$/Ubuntu/home") = str "//wsl$/Ubuntu/home".
Proof. reflexivity. Qed.

Example resolve_missing_directory :
  resolveWorkingDirectory sample_host (Some (str "/no/such/dir")) = Normal (str "/home/dev").
Proof. reflexivity. Qed.

Example resolve_existing_directory :
  resolveWorkingDirectory sample_host (Some (str "//srv/app")) = Normal (str "/srv/app").
Proof. reflexivity. Qed.

Example detectShell_sample : detectShell sample_host = (str "/bin/sh", []).
Proof. reflexivity. Qed.

Example create_then_full :
  let st := run [SetMax (Num 1); Create (sample_input "1700000000000" 11%nat)]
              (newService None) in
  getSessionCount st = 1 /\
  fst (createSession (sample_input "1700000000001" 12%nat) st) = Normal None /\
  fst (createSession (sample_input "1700000000001" 12%nat)
         (snd (killSession (Normal tt) sample_id st))) = Normal (Some 1%nat).
Proof. split; [|split]; vm_compute; reflexivity. Qed.

(** ** Lookups after the elementary state updates *)

Lemma getSession_Some sessionId st l session :
  getSession sessionId st = Some (l, session) ->
  sessions st !! sessionId = Some l /\ objs st !! l = Some session.
Proof.
  unfold getSession. intros H.
  destruct (sessions st !! sessionId) as [l'|]; [|discriminate].
  destruct (objs st !! l') as [s'|] eqn:Hobj; [|discriminate].
  inversion H; subst. auto.
Qed.

Lemma getSession_intro sessionId st l session :
  sessions st !! sessionId = Some l -> objs st !! l = Some session ->
  getSession sessionId st = Some (l, session).
Proof. unfold getSession. by intros -> ->. Qed.

(** * Working-directory resolver *)

(** C9: [resolveWorkingDirectory] never throws.  An absent or empty request
    gives the home directory; otherwise the cleaned path is returned when
    [statSync] reports a directory, and the home directory when the path is
    something else or [statSync] throws. *)
Theorem resolveWorkingDirectory_total (h : Host) (requestedCwd : option jstring) :
  exists dir,
    resolveWorkingDirectory h requestedCwd = Normal dir /\
    match requestedCwd with
    | None | Some [] => dir = homedir h
    | Some (c :: r) =>
        match statSync h (cleanPath (c :: r)) with
        | StatDirectory => dir = cleanPath (c :: r)
        | StatOther | StatThrows => dir = homedir h
        end
    end.
Proof.
  destruct requestedCwd as [[|c r]|]; simpl; eauto.
  unfold statSync_isDirectory.
  destruct (statSync h (cleanPath (c :: r))); simpl; eauto.
Qed.

(** * Session limit *)

Lemma setMaxSessions_spec (limit : number) (st : Service) :
  setMaxSessions limit st = if in_valid_range limit then set_maxSessions limit st else st.
Proof. reflexivity. Qed.

(** Only [setMaxSessions] assigns the module-level limit. *)
Lemma step_maxSessions (e : event) (st : Service) :
  maxSessions (step e st) =
  match e with
  | SetMax limit => if in_valid_range limit then limit else maxSessions st
  | _ => maxSessions st
  end.
Proof.
  destruct e; simpl; unfold_ops; unfold in_valid_range;
    split_cases; reflexivity.
Qed.

Lemma run_limit_in_range (es : list event) (st : Service) :
  in_valid_range (maxSessions st) = true ->
  in_valid_range (maxSessions (run es st)) = true.
Proof.
  revert st. induction es as [|e es IH]; intros st Hst; [exact Hst|].
  simpl. apply IH. rewrite step_maxSessions.
  destruct e; try exact Hst.
  destruct (in_valid_range limit) eqn:E; [exact E|exact Hst].
Qed.

(** C7 as stated fails at startup: with [TERMINAL_MAX_SESSIONS] unset the
    limit is 1000, above [MAX_MAX_SESSIONS]. *)
Lemma startup_limit_outside_range :
  getMaxSessions (newService None) = Num 1000 /\
  in_valid_range (getMaxSessions (newService None)) = false.
Proof. split; reflexivity. Qed.

(** C7, amended: the startup limit is [parseInt] of the environment variable
    or of ["1000"], with no range test at startup; [setMaxSessions] rejects
    every limit outside [MIN_MAX_SESSIONS..MAX_MAX_SESSIONS], leaving the
    state as it was, and takes every limit inside it; from then on the limit
    stays inside the range whatever the service does. *)
Theorem setMaxSessions_guards_range :
  (forall v, getMaxSessions (newService v) = parseInt (or_else v (str "1000"))) /\
  (forall limit st, in_valid_range limit = false -> setMaxSessions limit st = st) /\
  (forall limit st, in_valid_range limit = true ->
     getMaxSessions (setMaxSessions limit st) = limit) /\
  (forall limit, in_valid_range limit = true <->
     exists z, limit = Num z /\ MIN_MAX_SESSIONS <= z <= MAX_MAX_SESSIONS) /\
  (forall es st, in_valid_range (getMaxSessions st) = true ->
     in_valid_range (getMaxSessions (run es st)) = true).
Proof.
  split; [reflexivity|].
  split; [intros limit st H; rewrite setMaxSessions_spec, H; reflexivity|].
  split; [intros limit st H; rewrite setMaxSessions_spec, H; reflexivity|].
  split; [|exact run_limit_in_range].
  intros limit. unfold in_valid_range, num_ge, num_le. split.
  - destruct limit as [z|]; [|discriminate]. intros H.
    apply andb_true_iff in H as [H1 H2].
    apply Z.leb_le in H1, H2. eauto.
  - intros (z & -> & H1 & H2). apply andb_true_iff.
    split; apply Z.leb_le; assumption.
Qed.

(** * Capacity *)

Lemma createSession_rejects (inp : CreateInput) (st : Service) (C : Z) :
  maxSessions st = Num C -> C <= getSessionCount st ->
  createSession inp st = (Normal None, st).
Proof.
  intros HC Hfull. unfold createSession. rewrite HC. simpl.
  destruct (C <=? getSessionCount st) eqn:E; [reflexivity|].
  apply Z.leb_gt in E. lia.
Qed.

Lemma createSession_count (inp : CreateInput) (st : Service) (C : Z) :
  maxSessions st = Num C -> getSessionCount st <= C ->
  getSessionCount (snd (createSession inp st)) <= C.
Proof.
  intros HC Hle. unfold createSession. rewrite HC. simpl.
  destruct (C <=? getSessionCount st) eqn:E; [exact Hle|].
  apply Z.leb_gt in E.
  destruct (detectShell (host inp)) as [detectedShell shellArgs].
  destruct (resolveWorkingDirectory (host inp) (opt_cwd (options inp))); [|exact Hle].
  destruct (spawn inp) as [ptyProcess|]; [|exact Hle].
  unfold getSessionCount in *. simpl.
  set (sid := str "term-" ++ now inp ++ str "-" ++ random36 inp).
  destruct (sessions st !! sid) eqn:Hsid.
  - erewrite map_size_insert_Some by eauto. lia.
  - rewrite map_size_insert_None by assumption. lia.
Qed.

(** C1: with the limit at [C] and no more than [C] sessions to start with,
    after any sequence of [createSession] calls the registry holds at most
    [C] sessions; a call made when it holds [C] returns [null], which is not
    a session, and leaves the whole service state as it was. *)
Theorem createSession_respects_capacity
    (C : Z) (inputs : list CreateInput) (st : Service) :
  maxSessions st = Num C ->
  getSessionCount st <= C ->
  let st' := run (map Create inputs) st in
  getSessionCount st' <= C /\
  forall inp, getSessionCount st' = C ->
    createSession inp st' = (Normal None, st') /\
    forall l, fst (createSession inp st') <> Normal (Some l).
Proof.
  revert st. induction inputs as [|inp0 inputs IH]; intros st HC Hle; simpl.
  - split; [exact Hle|]. intros inp Hfull.
    rewrite (createSession_rejects inp st C) by (assumption || lia).
    split; [reflexivity|]. intros l. discriminate.
  - apply IH.
    + pose proof (step_maxSessions (Create inp0) st) as Hstep.
      simpl in Hstep. rewrite Hstep. exact HC.
    + apply createSession_count; assumption.
Qed.

Lemma createSession_respects_capacity_witness :
  let st := newService (Some (str "1")) in
  let st' := run (map Create [sample_input "1700000000000" 11%nat;
                              sample_input "1700000000001" 12%nat]) st in
  getSessionCount st' <= 1 /\
  forall inp, getSessionCount st' = 1 ->
    createSession inp st' = (Normal None, st') /\
    forall l, fst (createSession inp st') <> Normal (Some l).
Proof.
  apply (createSession_respects_capacity 1
           [sample_input "1700000000000" 11%nat; sample_input "1700000000001" 12%nat]
           (newService (Some (str "1")))).
  - reflexivity.
  - vm_compute. discriminate.
Defined.

(** * Resize failure *)

(** C8: when [session.pty.resize] throws inside [resize] (asked with or
    without suppression), [resize] returns [false] and the session's
    [resizeInProgress] flag is [false] on return. *)
Theorem resize_failure_clears_flag
    (sessionId : jstring) (cols rows : Z) (suppressOutput : bool)
    (st : Service) (l : loc) (session : TerminalSession) :
  getSession sessionId st = Some (l, session) ->
  exists session',
    fst (resize Thrown sessionId cols rows suppressOutput st) = false /\
    getSession sessionId (snd (resize Thrown sessionId cols rows suppressOutput st))
      = Some (l, session') /\
    resizeInProgress session' = false.
Proof.
  intros Hget. destruct (getSession_Some _ _ _ _ Hget) as [Hs Ho].
  unfold resize. rewrite Hget.
  exists (set_resizeInProgress false
            (if suppressOutput then set_resizeInProgress true session else session)).
  destruct suppressOutput; simpl.
  - destruct (resizeDebounceTimeout session); simpl;
      (split; [reflexivity|]); (split; [|reflexivity]);
      apply getSession_intro; simpl; [assumption|apply lookup_insert_eq| |];
      [assumption|apply lookup_insert_eq].
  - split; [reflexivity|]. split; [|reflexivity].
    apply getSession_intro; simpl; [assumption|apply lookup_insert_eq].
Qed.

Lemma resize_failure_clears_flag_witness :
  let st := run [Resize (Normal tt) sample_id 100 30 true] sample_service in
  exists session',
    fst (resize Thrown sample_id 120 40 true st) = false /\
    getSession sample_id (snd (resize Thrown sample_id 120 40 true st))
      = Some (0%nat, session') /\
    resizeInProgress session' = false.
Proof.
  apply (resize_failure_clears_flag sample_id 120 40 true
           (run [Resize (Normal tt) sample_id 100 30 true] sample_service) 0%nat
           (set_resizeDebounceTimeout (Some 0%nat)
              (set_resizeInProgress true sample_session))).
  vm_compute. reflexivity.
Defined.

(** * Scrollback reads *)

(** C10: for a live session whose scrollback is the empty string both
    [getScrollback] and [getScrollbackAndClearPending] return [null], the
    value they return for an unknown id; the latter still empties
    [outputBuffer], resets [flushTimeout] and disarms the flush timer. *)
Theorem empty_scrollback_reads_null
    (sessionId : jstring) (st : Service) (l : loc) (session : TerminalSession) :
  getSession sessionId st = Some (l, session) ->
  scrollbackBuffer session = [] ->
  getScrollback sessionId st = None /\
  fst (getScrollbackAndClearPending sessionId st) = None /\
  (exists session',
     getSession sessionId (snd (getScrollbackAndClearPending sessionId st))
       = Some (l, session') /\
     outputBuffer session' = [] /\
     flushTimeout session' = None /\
     armed (flushTimeout session) (snd (getScrollbackAndClearPending sessionId st))
       = false) /\
  (forall unknown st0,
     getSession unknown st0 = None ->
     getScrollback unknown st0 = None /\
     getScrollbackAndClearPending unknown st0 = (None, st0)).
Proof.
  intros Hget Hsb. destruct (getSession_Some _ _ _ _ Hget) as [Hs Ho].
  unfold getScrollback, getScrollbackAndClearPending. rewrite Hget.
  destruct session as [i p c ca sh sb ob ft rip rdt]; simpl in Hsb; subst sb.
  split; [reflexivity|].
  split; [destruct ft; reflexivity|].
  split.
  - exists (mkSession i p c ca sh [] [] None rip rdt).
    destruct ft as [t|]; simpl.
    + split; [apply getSession_intro; simpl; [assumption|apply lookup_insert_eq]|].
      split; [reflexivity|]. split; [reflexivity|].
      apply bool_decide_eq_false. rewrite lookup_delete_eq. intros [? ?]. discriminate.
    + split; [apply getSession_intro; simpl; [assumption|apply lookup_insert_eq]|].
      auto.
  - intros unknown st0 Hnone. rewrite Hnone. split; reflexivity.
Qed.

Lemma empty_scrollback_reads_null_witness :
  getScrollback sample_id sample_service = None /\
  fst (getScrollbackAndClearPending sample_id sample_service) = None /\
  (exists session',
     getSession sample_id (snd (getScrollbackAndClearPending sample_id sample_service))
       = Some (0%nat, session') /\
     outputBuffer session' = [] /\
     flushTimeout session' = None /\
     armed (flushTimeout sample_session)
       (snd (getScrollbackAndClearPending sample_id sample_service)) = false) /\
  (forall unknown st0,
     getSession unknown st0 = None ->
     getScrollback unknown st0 = None /\
     getScrollbackAndClearPending unknown st0 = (None, st0)).
Proof.
  apply (empty_scrollback_reads_null sample_id sample_service 0%nat sample_session).
  - vm_compute. reflexivity.
  - reflexivity.
Defined.

(** * Scrollback *)

Lemma most_recent_length (n : nat) (s : jstring) :
  length (most_recent n s) = Nat.min (length s) n.
Proof. unfold most_recent. rewrite length_drop. lia. Qed.

Lemma most_recent_all (n : nat) (s : jstring) :
  (length s <= n)%nat -> most_recent n s = s.
Proof.
  intros H. unfold most_recent.
  replace (length s - n)%nat with 0%nat by lia. reflexivity.
Qed.

Lemma most_recent_app (n : nat) (a b : jstring) :
  most_recent n (most_recent n a ++ b) = most_recent n (a ++ b).
Proof.
  destruct (Nat.le_gt_cases (length a) n) as [Hle|Hgt].
  { rewrite (most_recent_all n a) by assumption. reflexivity. }
  unfold most_recent at 1 3.
  rewrite !length_app, most_recent_length. unfold most_recent.
  rewrite Nat.min_r by lia.
  destruct (Nat.le_gt_cases (length b) n) as [Hb|Hb].
  - rewrite !drop_app_le by (rewrite ?length_drop; lia).
    rewrite drop_drop. f_equal. f_equal. lia.
  - rewrite !drop_app_ge by (rewrite ?length_drop; lia).
    rewrite length_drop. f_equal. lia.
Qed.

(** One output event on a session that is not suppressed. *)
Lemma ptyData_normal (l : loc) (data : jstring) (st : Service) (session : TerminalSession) :
  objs st !! l = Some session ->
  resizeInProgress session = false ->
  exists session',
    objs (ptyData l data st) !! l = Some session' /\
    scrollbackBuffer session' =
      most_recent (Z.to_nat MAX_SCROLLBACK_SIZE) (scrollbackBuffer session ++ data) /\
    outputBuffer session' = outputBuffer session ++ data /\
    resizeInProgress session' = false /\
    id session' = id session /\
    flushTimeout session' =
      Some (default (next_timer st) (flushTimeout session)) /\
    effects (ptyData l data st) = effects st.
Proof.
  intros Hobj Hflag. unfold ptyData. rewrite Hobj, Hflag.
  destruct session as [i p c ca sh sb ob ft rip rdt]; simpl in *.
  assert (Hsb : scrollbackBuffer
            (if MAX_SCROLLBACK_SIZE <? Z.of_nat (length (sb ++ data))
             then set_scrollbackBuffer
                    (slice (sb ++ data) (- MAX_SCROLLBACK_SIZE) None)
                    (mkSession i p c ca sh (sb ++ data) ob ft rip rdt)
             else mkSession i p c ca sh (sb ++ data) ob ft rip rdt)
          = most_recent (Z.to_nat MAX_SCROLLBACK_SIZE) (sb ++ data)).
  { destruct (MAX_SCROLLBACK_SIZE <? Z.of_nat (length (sb ++ data))) eqn:E; simpl.
    - apply slice_last. reflexivity.
    - apply Z.ltb_ge in E. symmetry. apply most_recent_all. lia. }
  destruct (MAX_SCROLLBACK_SIZE <? Z.of_nat (length (sb ++ data))); simpl in *;
    destruct ft as [t|]; simpl;
    eexists; (split; [apply lookup_insert_eq|]); simpl; rewrite <- Hsb; auto 10.
Qed.

Lemma scrollback_after_appends (l : loc) (chunks : list jstring) :
  forall (st : Service) (session : TerminalSession),
  objs st !! l = Some session ->
  resizeInProgress session = false ->
  (length (scrollbackBuffer session) <= Z.to_nat MAX_SCROLLBACK_SIZE)%nat ->
  exists session',
    objs (run (map (Output l) chunks) st) !! l = Some session' /\
    resizeInProgress session' = false /\
    scrollbackBuffer session' =
      most_recent (Z.to_nat MAX_SCROLLBACK_SIZE) (scrollbackBuffer session ++ concat chunks).
Proof.
  induction chunks as [|data chunks IH]; intros st session Hobj Hflag Hlen; simpl.
  - exists session. rewrite app_nil_r, most_recent_all by assumption. auto.
  - destruct (ptyData_normal l data st session Hobj Hflag)
      as (s1 & Hobj1 & Hsb1 & _ & Hflag1 & _).
    destruct (IH (ptyData l data st) s1 Hobj1 Hflag1) as (s2 & Hobj2 & Hflag2 & Hsb2).
    { rewrite Hsb1, most_recent_length. lia. }
    exists s2. split; [exact Hobj2|]. split; [exact Hflag2|].
    rewrite Hsb2, Hsb1, most_recent_app, <- app_assoc. reflexivity.
Qed.

(** C5: starting from a session whose scrollback is empty, as at creation,
    after any sequence of output events taken while the session is not
    suppressed the scrollback is never longer than [MAX_SCROLLBACK_SIZE] and
    holds exactly the last min(total, [MAX_SCROLLBACK_SIZE]) code units of
    the concatenation of the chunks. *)
Theorem scrollback_keeps_most_recent
    (l : loc) (chunks : list jstring) (st : Service) (session : TerminalSession) :
  objs st !! l = Some session ->
  resizeInProgress session = false ->
  scrollbackBuffer session = [] ->
  exists session',
    objs (run (map (Output l) chunks) st) !! l = Some session' /\
    scrollbackBuffer session' =
      drop (length (concat chunks) - Z.to_nat MAX_SCROLLBACK_SIZE) (concat chunks) /\
    Z.of_nat (length (scrollbackBuffer session')) =
      Z.min (Z.of_nat (length (concat chunks))) MAX_SCROLLBACK_SIZE /\
    Z.of_nat (length (scrollbackBuffer session')) <= MAX_SCROLLBACK_SIZE.
Proof.
  intros Hobj Hflag Hsb.
  destruct (scrollback_after_appends l chunks st session Hobj Hflag)
    as (s' & Hobj' & _ & Hsb').
  { rewrite Hsb. simpl. lia. }
  rewrite Hsb in Hsb'. simpl in Hsb'.
  exists s'. split; [exact Hobj'|]. split; [exact Hsb'|].
  rewrite Hsb', most_recent_length. unfold MAX_SCROLLBACK_SIZE. lia.
Qed.

(** * Output scheduler *)

(** What one run of [flushOutput] does, by the size of the pending buffer. *)
Lemma flushOutput_cases (l : loc) (st : Service) (session : TerminalSession) :
  objs st !! l = Some session ->
  let pending := outputBuffer session in
  let cap := Z.to_nat OUTPUT_BATCH_SIZE in
  (pending = [] -> flushOutput l st = st) /\
  (pending <> [] -> (length pending <= cap)%nat ->
     flushOutput l st =
       perform (deliveries (dataCallbacks st) (id session) [pending])
         (store l (set_flushTimeout None (set_outputBuffer [] session)) st)) /\
  ((cap < length pending)%nat ->
     flushOutput l st =
       perform (deliveries (dataCallbacks st) (id session) [take cap pending])
         (store l (set_flushTimeout (Some (next_timer st))
                     (set_outputBuffer (drop cap pending) session))
            (snd (setTimeout (FlushTask l) st)))).
Proof.
  intros Hobj pending cap. unfold flushOutput. rewrite Hobj.
  fold pending. unfold deliveries, flat_map. rewrite !app_nil_r.
  subst cap. unfold OUTPUT_BATCH_SIZE in *.
  split; [intros ->; reflexivity|]. split.
  - intros Hne Hle. destruct pending as [|c r] eqn:E; [congruence|].
    rewrite <- E in *. replace (length pending =? 0)%nat with false
      by (symmetry; apply Nat.eqb_neq; rewrite E; discriminate).
    replace (4096 <? Z.of_nat (length pending)) with false
      by (symmetry; apply Z.ltb_ge; lia).
    reflexivity.
  - intros Hgt.
    replace (length pending =? 0)%nat with false
      by (symmetry; apply Nat.eqb_neq; lia).
    replace (4096 <? Z.of_nat (length pending)) with true
      by (symmetry; apply Z.ltb_lt; lia).
    simpl. rewrite slice_prefix, slice_suffix by lia.
    reflexivity.
Qed.

Lemma fireTimer_flush (t : timer_id) (l : loc) (st : Service) :
  timers st !! t = Some (FlushTask l) ->
  fireTimer t st = flushOutput l (clearTimeout t st).
Proof. intros H. unfold fireTimer. rewrite H. reflexivity. Qed.

(** A flush of more than one batch: the first batch goes out, the rest
    stays, and the next flush is armed. *)
Lemma flushOutput_batch (l : loc) (st : Service) (session : TerminalSession) :
  objs st !! l = Some session ->
  (Z.to_nat OUTPUT_BATCH_SIZE < length (outputBuffer session))%nat ->
  let cap := Z.to_nat OUTPUT_BATCH_SIZE in
  let st' := flushOutput l st in
  objs st' !! l =
    Some (set_flushTimeout (Some (next_timer st))
            (set_outputBuffer (drop cap (outputBuffer session)) session)) /\
  timers st' !! next_timer st = Some (FlushTask l) /\
  next_timer st' = S (next_timer st) /\
  dataCallbacks st' = dataCallbacks st /\
  effects st' =
    effects st ++ deliveries (dataCallbacks st) (id session)
                    [take cap (outputBuffer session)].
Proof.
  intros Hobj Hgt cap st'. subst st'.
  destruct (flushOutput_cases l st session Hobj) as (_ & _ & H). rewrite (H Hgt).
  simpl. rewrite !lookup_insert_eq. auto.
Qed.

(** A flush of at most one batch: everything goes out, nothing is armed. *)
Lemma flushOutput_rest (l : loc) (st : Service) (session : TerminalSession) :
  objs st !! l = Some session ->
  outputBuffer session <> [] ->
  (length (outputBuffer session) <= Z.to_nat OUTPUT_BATCH_SIZE)%nat ->
  let st' := flushOutput l st in
  objs st' !! l = Some (set_flushTimeout None (set_outputBuffer [] session)) /\
  timers st' = timers st /\
  next_timer st' = next_timer st /\
  dataCallbacks st' = dataCallbacks st /\
  effects st' =
    effects st ++ deliveries (dataCallbacks st) (id session) [outputBuffer session].
Proof.
  intros Hobj Hne Hle st'. subst st'.
  destruct (flushOutput_cases l st session Hobj) as (_ & H & _). rewrite (H Hne Hle).
  simpl. rewrite !lookup_insert_eq. auto.
Qed.

(** C6 as stated fails: after one flush of a 10000-unit buffer, 5904 units
    are still pending, more than [OUTPUT_BATCH_SIZE]. *)
Lemma flush_leaves_more_than_a_batch :
  let st := run [Output 0%nat (repeat 65%N (Z.to_nat 10000)); Timer 0%nat] sample_service in
  exists session',
    objs st !! 0%nat = Some session' /\
    Z.of_nat (length (outputBuffer session')) = 5904 /\
    ~ Z.of_nat (length (outputBuffer session')) <= OUTPUT_BATCH_SIZE.
Proof.
  eexists. split; [vm_compute; reflexivity|].
  split; [vm_compute; reflexivity|].
  vm_compute. intros H. apply H. reflexivity.
Qed.

(** C6, amended: one run of [flushOutput] either finds nothing pending and
    changes nothing; or finds at most [OUTPUT_BATCH_SIZE] units, delivers
    them all, empties the buffer and leaves no flush scheduled; or delivers
    exactly the first [OUTPUT_BATCH_SIZE] units, keeps the rest (which may
    itself be longer than a batch) and arms the next flush.  No delivery is
    longer than [OUTPUT_BATCH_SIZE], and what was sent followed by what is
    still pending is what was pending. *)
Theorem flushOutput_drains_or_reschedules
    (l : loc) (st : Service) (session : TerminalSession) :
  objs st !! l = Some session ->
  let pending := outputBuffer session in
  let cap := Z.to_nat OUTPUT_BATCH_SIZE in
  let st' := flushOutput l st in
  exists session' sent,
    objs st' !! l = Some session' /\
    effects st' = effects st ++ deliveries (dataCallbacks st) (id session) sent /\
    Forall (fun chunk => (length chunk <= cap)%nat) sent /\
    concat sent ++ outputBuffer session' = pending /\
    ((pending = [] /\ sent = [] /\ st' = st) \/
     (pending <> [] /\ (length pending <= cap)%nat /\ sent = [pending] /\
      outputBuffer session' = [] /\ flushTimeout session' = None /\
      timers st' = timers st) \/
     ((cap < length pending)%nat /\ sent = [take cap pending] /\
      length (take cap pending) = cap /\
      outputBuffer session' = drop cap pending /\
      flushTimeout session' = Some (next_timer st) /\
      timers st' !! next_timer st = Some (FlushTask l))).
Proof.
  intros Hobj pending cap st'.
  destruct (decide (pending = [])) as [Hnil|Hne].
  { exists session, []. subst st'.
    destruct (flushOutput_cases l st session Hobj) as (H & _). rewrite (H Hnil).
    simpl. rewrite app_nil_r. split; [exact Hobj|]. split; [reflexivity|].
    split; [constructor|]. split; [reflexivity|]. left. auto. }
  destruct (Nat.le_gt_cases (length pending) cap) as [Hle|Hgt].
  - destruct (flushOutput_rest l st session Hobj Hne Hle)
      as (Hobj' & Htimers & _ & _ & Heff).
    exists (set_flushTimeout None (set_outputBuffer [] session)), [pending].
    split; [exact Hobj'|]. split; [exact Heff|].
    split; [constructor; [exact Hle|constructor]|].
    split; [simpl; rewrite !app_nil_r; reflexivity|].
    right. left. auto 10.
  - destruct (flushOutput_batch l st session Hobj Hgt)
      as (Hobj' & Htimers & _ & _ & Heff).
    exists (set_flushTimeout (Some (next_timer st))
              (set_outputBuffer (drop cap pending) session)), [take cap pending].
    split; [exact Hobj'|]. split; [exact Heff|].
    split; [constructor; [rewrite length_take; lia|constructor]|].
    split; [simpl; rewrite app_nil_r; apply take_drop|].
    right. right. split; [exact Hgt|]. split; [reflexivity|].
    split; [rewrite length_take; lia|]. auto.
Qed.

Lemma flushOutput_drains_or_reschedules_witness :
  let st := run [Output 0%nat (str "ready" ++ str "> ")] sample_service in
  exists session',
    objs (flushOutput 0%nat st) !! 0%nat = Some session' /\
    outputBuffer session' = [] /\
    effects (flushOutput 0%nat st) =
      effects st ++ deliveries [7%nat] sample_id [str "ready> "].
Proof.
  destruct (flushOutput_drains_or_reschedules 0%nat
              (run [Output 0%nat (str "ready" ++ str "> ")] sample_service)
              (mkSession sample_id 11%nat (str "/home/dev") 0 (str "/bin/sh")
                 (str "ready> ") (str "ready> ") (Some 0%nat) false None))
    as (session' & sent & Hobj & Heff & _ & _ & Hcase).
  { vm_compute. reflexivity. }
  exists session'. split; [exact Hobj|].
  destruct Hcase as [(Hnil & _)|[(_ & _ & Hsent & Hout & _)|(Hgt & _)]].
  - discriminate Hnil.
  - split; [exact Hout|]. rewrite Heff, Hsent. reflexivity.
  - vm_compute in Hgt. lia.
Defined.

(** What one subscriber sees of a series of deliveries. *)
Lemma received_calls_absent (cb : callback) (sid chunk : jstring) (subs : list callback) :
  cb ∉ subs ->
  received cb (map (fun c => CallData c sid chunk) subs) = [].
Proof.
  induction subs as [|c subs IH]; intros Hnotin; [reflexivity|].
  apply not_elem_of_cons in Hnotin as [Hne Hnotin].
  unfold received in *. simpl.
  destruct (decide (c = cb)) as [->|_]; [congruence|]. apply IH, Hnotin.
Qed.

Lemma received_calls (cb : callback) (sid chunk : jstring) (subs : list callback) :
  NoDup subs -> cb ∈ subs ->
  received cb (map (fun c => CallData c sid chunk) subs) = [(sid, chunk)].
Proof.
  induction subs as [|c subs IH]; intros Hnd Hin; [inversion Hin|].
  apply NoDup_cons in Hnd as [Hc Hnd].
  change (received cb (map (fun c0 => CallData c0 sid chunk) (c :: subs)))
    with (match (if decide (c = cb) then Some (sid, chunk) else None) with
          | Some x => x :: received cb (map (fun c0 => CallData c0 sid chunk) subs)
          | None => received cb (map (fun c0 => CallData c0 sid chunk) subs)
          end).
  destruct (decide (c = cb)) as [->|Hne].
  - rewrite received_calls_absent by assumption. reflexivity.
  - apply IH; [assumption|].
    apply elem_of_cons in Hin as [->|Hin]; [congruence|assumption].
Qed.

Lemma received_deliveries (cb : callback) (sid : jstring) (subs : list callback)
    (chunks : list jstring) :
  NoDup subs -> cb ∈ subs ->
  received cb (deliveries subs sid chunks) = map (fun chunk => (sid, chunk)) chunks.
Proof.
  intros Hnd Hin. induction chunks as [|chunk chunks IH]; [reflexivity|].
  unfold deliveries, received in *. simpl.
  rewrite !omap_app. rewrite IH.
  fold (received cb (map (fun c => CallData c sid chunk) subs)).
  rewrite received_calls by assumption. reflexivity.
Qed.

(** An output event on a session with no flush scheduled arms one. *)
Lemma ptyData_schedules (l : loc) (data : jstring) (st : Service) (session : TerminalSession) :
  objs st !! l = Some session ->
  resizeInProgress session = false ->
  flushTimeout session = None ->
  timers (ptyData l data st) !! next_timer st = Some (FlushTask l) /\
  next_timer (ptyData l data st) = S (next_timer st) /\
  dataCallbacks (ptyData l data st) = dataCallbacks st.
Proof.
  intros Hobj Hflag Hft. unfold ptyData. rewrite Hobj, Hflag.
  destruct session as [i p c ca sh sb ob ft rip rdt]; simpl in *. subst ft.
  destruct (MAX_SCROLLBACK_SIZE <? Z.of_nat (length (sb ++ data))); simpl;
    rewrite lookup_insert_eq; auto.
Qed.

(** C4 as stated fails for a session in the Normal state that already has
    output pending: the burst is appended to the pending buffer and the
    batches are cut from the whole of it.  With three code units pending,
    the subscriber receives 4096, 4096 and 1811 code units, which put
    together are the three pending units followed by the burst, not the
    burst. *)
Lemma burst_joins_pending_output :
  let st := run [Output 0%nat (str "abc")] sample_service in
  let burst := repeat 65%N (Z.to_nat 10000) in
  let st' := run [Output 0%nat burst; Timer 0%nat; Timer 1%nat; Timer 2%nat] st in
  let chunks := map snd (received 7%nat (effects st')) in
  (exists session, objs st !! 0%nat = Some session /\ resizeInProgress session = false) /\
  received 7%nat (effects st) = [] /\
  map (fun chunk => Z.of_nat (length chunk)) chunks = [4096; 4096; 1811] /\
  concat chunks = str "abc" ++ burst /\
  concat chunks <> burst.
Proof.
  split; [eexists; split; vm_compute; reflexivity|].
  split; [vm_compute; reflexivity|].
  split; [vm_compute; reflexivity|].
  split; [vm_compute; reflexivity|].
  intros H. apply (f_equal (fun s => Z.of_nat (length s))) in H.
  vm_compute in H. discriminate H.
Qed.

(** C4, amended: a session that is not suppressed and has nothing pending
    and no flush scheduled receives 10000 code units in one output event.
    Letting the flush timer run until none is armed takes three firings;
    every data subscriber is called exactly three times for this burst, with
    4096, 4096 and 1808 code units in that order, which put together are the
    burst. *)
Theorem burst_is_delivered_in_three_batches
    (l : loc) (data : jstring) (st : Service) (session : TerminalSession) :
  objs st !! l = Some session ->
  resizeInProgress session = false ->
  outputBuffer session = [] ->
  flushTimeout session = None ->
  length data = Z.to_nat 10000 ->
  let t := next_timer st in
  let st' := run [Output l data; Timer t; Timer (S t); Timer (S (S t))] st in
  let c1 := take (Z.to_nat OUTPUT_BATCH_SIZE) data in
  let c2 := take (Z.to_nat OUTPUT_BATCH_SIZE) (drop (Z.to_nat OUTPUT_BATCH_SIZE) data) in
  let c3 := drop (Z.to_nat OUTPUT_BATCH_SIZE) (drop (Z.to_nat OUTPUT_BATCH_SIZE) data) in
  effects st' = effects st ++ deliveries (dataCallbacks st) (id session) [c1; c2; c3] /\
  (forall cb, NoDup (dataCallbacks st) -> cb ∈ dataCallbacks st ->
     received cb (effects st') =
     received cb (effects st) ++ [(id session, c1); (id session, c2); (id session, c3)]) /\
  map length [c1; c2; c3] = [Z.to_nat 4096; Z.to_nat 4096; Z.to_nat 1808] /\
  c1 ++ c2 ++ c3 = data /\
  exists session',
    objs st' !! l = Some session' /\
    outputBuffer session' = [] /\
    flushTimeout session' = None /\
    armed (Some (S (S t))) st' = false.
Proof.
  intros Hobj Hflag Hob Hft Hlen t st' c1 c2 c3.
  assert (Hcap : Z.to_nat OUTPUT_BATCH_SIZE = Z.to_nat 4096) by reflexivity.
  (* the output event *)
  destruct (ptyData_normal l data st session Hobj Hflag)
    as (s1 & Hobj1 & _ & Hob1 & _ & Hid1 & Hft1 & Heff1).
  destruct (ptyData_schedules l data st session Hobj Hflag Hft)
    as (Htm1 & Hnext1 & Hcb1).
  rewrite Hob in Hob1. simpl in Hob1.
  set (st1 := ptyData l data st) in *.
  (* first firing *)
  pose proof (fireTimer_flush t l st1 Htm1) as Hfire1.
  destruct (flushOutput_batch l (clearTimeout t st1) s1 Hobj1)
    as (Hobj2 & Htm2 & Hnext2 & Hcb2 & Heff2).
  { rewrite Hob1, Hlen. unfold OUTPUT_BATCH_SIZE. lia. }
  rewrite <- Hfire1 in Hobj2, Htm2, Hnext2, Hcb2, Heff2.
  simpl in Htm2, Hnext2, Hcb2, Heff2, Hobj2. rewrite Hnext1 in *.
  set (st2 := fireTimer t st1) in *.
  set (s2 := set_flushTimeout (Some (S t))
               (set_outputBuffer (drop (Z.to_nat OUTPUT_BATCH_SIZE) (outputBuffer s1)) s1))
    in *.
  (* second firing *)
  pose proof (fireTimer_flush (S t) l st2 Htm2) as Hfire2.
  destruct (flushOutput_batch l (clearTimeout (S t) st2) s2 Hobj2)
    as (Hobj3 & Htm3 & Hnext3 & Hcb3 & Heff3).
  { subst s2. simpl. rewrite Hob1, length_drop, Hlen. unfold OUTPUT_BATCH_SIZE. lia. }
  rewrite <- Hfire2 in Hobj3, Htm3, Hnext3, Hcb3, Heff3.
  simpl in Htm3, Hnext3, Hcb3, Heff3, Hobj3. rewrite Hnext2 in *.
  set (st3 := fireTimer (S t) st2) in *.
  set (s3 := set_flushTimeout (Some (S (S t)))
               (set_outputBuffer (drop (Z.to_nat OUTPUT_BATCH_SIZE) (outputBuffer s2)) s2))
    in *.
  (* third firing *)
  pose proof (fireTimer_flush (S (S t)) l st3 Htm3) as Hfire3.
  destruct (flushOutput_rest l (clearTimeout (S (S t)) st3) s3 Hobj3)
    as (Hobj4 & Htm4 & _ & _ & Heff4).
  { subst s3 s2. simpl. rewrite Hob1. intros Hnil.
    apply (f_equal length) in Hnil. rewrite !length_drop, Hlen in Hnil.
    unfold OUTPUT_BATCH_SIZE in Hnil. simpl in Hnil. lia. }
  { subst s3 s2. simpl. rewrite Hob1, !length_drop, Hlen. unfold OUTPUT_BATCH_SIZE. lia. }
  rewrite <- Hfire3 in Hobj4, Htm4, Heff4.
  simpl in Htm4, Heff4, Hobj4.
  change st' with (fireTimer (S (S t)) st3).
  assert (Heff : effects (fireTimer (S (S t)) st3) =
                 effects st ++ deliveries (dataCallbacks st) (id session) [c1; c2; c3]).
  { rewrite Heff4, Heff3, Heff2, Hcb3, Hcb2, Hcb1, Heff1.
    subst s3 s2. simpl. rewrite Hid1, Hob1.
    unfold deliveries. simpl. rewrite !app_nil_r, <- !app_assoc. reflexivity. }
  split; [exact Heff|]. split.
  { intros cb Hnd Hin. rewrite Heff. unfold received at 1. rewrite omap_app.
    fold (received cb (effects st)).
    fold (received cb (deliveries (dataCallbacks st) (id session) [c1; c2; c3])).
    rewrite received_deliveries by assumption. reflexivity. }
  split.
  { subst c1 c2 c3. simpl. rewrite !length_take, !length_drop, Hlen, Hcap.
    repeat f_equal; lia. }
  split.
  { subst c1 c2 c3. rewrite !take_drop. reflexivity. }
  exists (set_flushTimeout None (set_outputBuffer [] s3)).
  split; [exact Hobj4|]. split; [reflexivity|]. split; [reflexivity|].
  simpl. apply bool_decide_eq_false. rewrite Htm4. simpl.
  rewrite lookup_delete_eq. intros [? ?]. discriminate.
Qed.

Lemma burst_is_delivered_in_three_batches_witness :
  let data := repeat 65%N (Z.to_nat 10000) in
  let st' := run [Output 0%nat data; Timer 0%nat; Timer 1%nat; Timer 2%nat]
               sample_service in
  received 7%nat (effects st') =
    [(sample_id, repeat 65%N (Z.to_nat 4096));
     (sample_id, repeat 65%N (Z.to_nat 4096));
     (sample_id, repeat 65%N (Z.to_nat 1808))].
Proof.
  intros data st'.
  destruct (burst_is_delivered_in_three_batches 0%nat data sample_service sample_session)
    as (_ & Hreceived & _).
  - vm_compute. reflexivity.
  - reflexivity.
  - reflexivity.
  - reflexivity.
  - vm_compute. reflexivity.
  - etransitivity.
    + apply (Hreceived 7%nat).
      * vm_compute. apply NoDup_singleton.
      * vm_compute. apply list_elem_of_here.
    + vm_compute. reflexivity.
Defined.

Lemma scrollback_keeps_most_recent_witness :
  let chunks := [repeat 65%N (Z.to_nat 30000); repeat 66%N (Z.to_nat 30000)] in
  exists session',
    objs (run (map (Output 0%nat) chunks) sample_service) !! 0%nat = Some session' /\
    scrollbackBuffer session' = drop (Z.to_nat 10000) (concat chunks) /\
    Z.of_nat (length (scrollbackBuffer session')) = 50000.
Proof.
  intros chunks.
  destruct (scrollback_keeps_most_recent 0%nat chunks sample_service sample_session)
    as (session' & Hobj & Hsb & Hlen & _).
  - vm_compute. reflexivity.
  - reflexivity.
  - reflexivity.
  - exists session'. split; [exact Hobj|].
    assert (Htotal : length (concat chunks) = Z.to_nat 60000).
    { subst chunks. cbn [concat].
      rewrite app_nil_r, length_app, !repeat_length. lia. }
    rewrite Htotal in Hsb, Hlen.
    replace (Z.to_nat 60000 - Z.to_nat MAX_SCROLLBACK_SIZE)%nat
      with (Z.to_nat 10000) in Hsb by (unfold MAX_SCROLLBACK_SIZE; lia).
    split; [exact Hsb|].
    rewrite Hlen. unfold MAX_SCROLLBACK_SIZE. lia.
Defined.

(** * Resize suppression *)

Lemma ptyData_suppressed (l : loc) (data : jstring) (st : Service) (session : TerminalSession) :
  objs st !! l = Some session ->
  resizeInProgress session = true ->
  ptyData l data st = st.
Proof. intros Hobj Hflag. unfold ptyData. rewrite Hobj, Hflag. reflexivity. Qed.

Lemma deliveries_app (subs : list callback) (sid : jstring) (a b : list jstring) :
  deliveries subs sid (a ++ b) = deliveries subs sid a ++ deliveries subs sid b.
Proof. unfold deliveries. apply flat_map_app. Qed.

(** [flushOutput] only moves code units from the front of [outputBuffer]
    to the subscribers; it never reads [resizeInProgress]. *)
Lemma flushOutput_moves_pending (l : loc) (st : Service) (session : TerminalSession) :
  objs st !! l = Some session ->
  exists session' sent,
    objs (flushOutput l st) !! l = Some session' /\
    resizeInProgress session' = resizeInProgress session /\
    scrollbackBuffer session' = scrollbackBuffer session /\
    id session' = id session /\
    dataCallbacks (flushOutput l st) = dataCallbacks st /\
    effects (flushOutput l st) =
      effects st ++ deliveries (dataCallbacks st) (id session) sent /\
    concat sent ++ outputBuffer session' = outputBuffer session.
Proof.
  intros Hobj.
  destruct (flushOutput_cases l st session Hobj) as (Hnil & Hrest & Hbatch).
  destruct (decide (outputBuffer session = [])) as [E|Hne].
  { exists session, []. rewrite (Hnil E). simpl. rewrite app_nil_r. auto 10. }
  destruct (Nat.le_gt_cases (length (outputBuffer session)) (Z.to_nat OUTPUT_BATCH_SIZE))
    as [Hle|Hgt].
  - exists (set_flushTimeout None (set_outputBuffer [] session)), [outputBuffer session].
    rewrite (Hrest Hne Hle). simpl. rewrite lookup_insert_eq, !app_nil_r. auto 10.
  - exists (set_flushTimeout (Some (next_timer st))
              (set_outputBuffer (drop (Z.to_nat OUTPUT_BATCH_SIZE) (outputBuffer session))
                 session)),
           [take (Z.to_nat OUTPUT_BATCH_SIZE) (outputBuffer session)].
    rewrite (Hbatch Hgt). simpl. rewrite lookup_insert_eq, !app_nil_r, take_drop. auto 10.
Qed.

Lemma window_run (l : loc) (st : Service) (es : list event) (st' : Service) :
  window l st es st' -> st' = run es st.
Proof. induction 1; simpl; auto. Qed.

Lemma window_suppressed (l : loc) (st : Service) (es : list event) (st' : Service) :
  window l st es st' ->
  forall session,
  objs st !! l = Some session ->
  resizeInProgress session = true ->
  exists session' sent,
    objs st' !! l = Some session' /\
    resizeInProgress session' = true /\
    scrollbackBuffer session' = scrollbackBuffer session /\
    effects st' = effects st ++ deliveries (dataCallbacks st) (id session) sent /\
    concat sent ++ outputBuffer session' = outputBuffer session.
Proof.
  induction 1 as [st|st data es st' Hw IH|st t es st' Ht Hw IH];
    intros session Hobj Hflag.
  - exists session, []. simpl. rewrite app_nil_r. auto.
  - rewrite (ptyData_suppressed l data st session Hobj Hflag) in IH.
    exact (IH session Hobj Hflag).
  - rewrite (fireTimer_flush t l st Ht) in IH.
    destruct (flushOutput_moves_pending l (clearTimeout t st) session Hobj)
      as (s1 & sent1 & Hobj1 & Hflag1 & Hsb1 & Hid1 & Hcb1 & Heff1 & Hcat1).
    destruct (IH s1 Hobj1) as (s2 & sent2 & Hobj2 & Hflag2 & Hsb2 & Heff2 & Hcat2).
    { rewrite Hflag1. exact Hflag. }
    exists s2, (sent1 ++ sent2).
    split; [exact Hobj2|]. split; [exact Hflag2|].
    split; [rewrite Hsb2; exact Hsb1|]. split.
    + rewrite Heff2, Heff1, Hcb1, Hid1. simpl.
      rewrite deliveries_app, app_assoc. reflexivity.
    + rewrite concat_app, <- app_assoc, Hcat2. exact Hcat1.
Qed.

(** C2 as stated fails for a flush scheduled before the suppressing
    [resize]: three code units arrive, [resize] sets the flag, then the flush
    timer fires and hands them to the subscriber while the flag is set. *)
Lemma flush_delivers_while_suppressed :
  let st := run [Output 0%nat (str "abc"); Resize (Normal tt) sample_id 100 30 true]
              sample_service in
  (exists session, objs st !! 0%nat = Some session /\ resizeInProgress session = true) /\
  (exists session, objs (fireTimer 0%nat st) !! 0%nat = Some session /\
                   resizeInProgress session = true) /\
  effects (fireTimer 0%nat st) =
    effects st ++ [CallData 7%nat sample_id (str "abc"); EmitData sample_id (str "abc")].
Proof.
  split; [eexists; split; vm_compute; reflexivity|].
  split; [eexists; split; vm_compute; reflexivity|].
  vm_compute. reflexivity.
Qed.

(** C2, amended: while a session's [resizeInProgress] flag is set, an
    output event changes nothing at all: the chunk is not appended to the
    scrollback or to the pending buffer, no flush is scheduled, nothing is
    delivered.  Over any interleaving of output events and flush-timer
    firings for that session the flag stays set and the scrollback stays as
    it was; a flush armed before the flag was set still fires and
    delivers, but only code units that were already pending: what is
    delivered followed by what is left pending is what was pending when
    the window began. *)
Theorem suppressed_output_is_dropped
    (l : loc) (st : Service) (es : list event) (st' : Service)
    (session : TerminalSession) :
  window l st es st' ->
  objs st !! l = Some session ->
  resizeInProgress session = true ->
  st' = run es st /\
  (forall data, ptyData l data st = st) /\
  exists session' sent,
    objs st' !! l = Some session' /\
    resizeInProgress session' = true /\
    scrollbackBuffer session' = scrollbackBuffer session /\
    effects st' = effects st ++ deliveries (dataCallbacks st) (id session) sent /\
    concat sent ++ outputBuffer session' = outputBuffer session.
Proof.
  intros Hw Hobj Hflag.
  split; [exact (window_run l st es st' Hw)|].
  split; [intros data; exact (ptyData_suppressed l data st session Hobj Hflag)|].
  exact (window_suppressed l st es st' Hw session Hobj Hflag).
Qed.

Lemma suppressed_output_is_dropped_witness :
  let st := run [Output 0%nat (str "abc"); Resize (Normal tt) sample_id 100 30 true]
              sample_service in
  let es := [Output 0%nat (str "xyz"); Timer 0%nat; Output 0%nat (str "uvw")] in
  exists session' sent,
    objs (run es st) !! 0%nat = Some session' /\
    resizeInProgress session' = true /\
    scrollbackBuffer session' = str "abc" /\
    effects (run es st) = effects st ++ deliveries [7%nat] sample_id sent /\
    concat sent ++ outputBuffer session' = str "abc".
Proof.
  intros st es.
  destruct (suppressed_output_is_dropped 0%nat st es (run es st)
              (mkSession sample_id 11%nat (str "/home/dev") 0 (str "/bin/sh")
                 (str "abc") (str "abc") (Some 0%nat) true (Some 1%nat)))
    as (_ & _ & Hwindow).
  - apply window_output, window_flush; [vm_compute; reflexivity|].
    apply window_output, window_done.
  - vm_compute. reflexivity.
  - reflexivity.
  - exact Hwindow.
Defined.

(** * Removal *)

(** [killSession] disarms both timers of the session it removes, whether
    or not [pty.kill] throws. *)
Lemma killSession_disarms_timers
    (ptyKill : completion unit) (sessionId : jstring) (st : Service)
    (l : loc) (session : TerminalSession) :
  getSession sessionId st = Some (l, session) ->
  let st' := snd (killSession ptyKill sessionId st) in
  sessions st' !! sessionId = None /\
  armed (flushTimeout session) st' = false /\
  armed (resizeDebounceTimeout session) st' = false /\
  exists session',
    objs st' !! l = Some session' /\
    flushTimeout session' = None /\ resizeDebounceTimeout session' = None.
Proof.
  intros Hget st'. subst st'. unfold killSession. rewrite Hget.
  destruct session as [i p c ca sh sb ob ft rip rdt].
  assert (Hno : forall (m : gmap timer_id task) t, ~ is_Some (delete t m !! t)).
  { intros m t [x Hx]. rewrite lookup_delete_eq in Hx. discriminate. }
  assert (Hno2 : forall (m : gmap timer_id task) t u, ~ is_Some (delete u (delete t m) !! t)).
  { intros m t u [x Hx]. apply lookup_delete_Some in Hx as [_ Hx].
    rewrite lookup_delete_eq in Hx. discriminate. }
  destruct ft as [t|], rdt as [u|], ptyKill as [[]|]; simpl;
    rewrite ?lookup_delete_eq, ?lookup_insert_eq;
    repeat split; eauto using bool_decide_eq_false_2.
Qed.

(** The [onExit] handler touches the registry and the subscribers only:
    the timer table and the session objects are as they were. *)
Lemma ptyExit_cancels_nothing (l : loc) (exitCode : Z) (st : Service) :
  timers (ptyExit l exitCode st) = timers st /\
  objs (ptyExit l exitCode st) = objs st.
Proof. unfold ptyExit. destruct (objs st !! l); split; reflexivity. Qed.

(** C3, the exit path: the [onExit] handler removes the registry entry and
    notifies, and cancels nothing.  With three code units pending and a
    settle timer running when the process exits, the session is gone from
    the registry while its flush timer and its settle timer are still armed;
    the flush timer then fires for the removed session and delivers. *)
Theorem exit_leaves_timers_armed :
  let st := run [Output 0%nat (str "bye"); Resize (Normal tt) sample_id 100 30 false;
                 Resize (Normal tt) sample_id 100 30 true]
              sample_service in
  let st' := ptyExit 0%nat 0 st in
  sessions st' !! sample_id = None /\
  timers st' !! 0%nat = Some (FlushTask 0%nat) /\
  timers st' !! 1%nat = Some (SettleTask 0%nat) /\
  effects st' = effects st ++ [CallExit 9%nat sample_id 0; EmitExit sample_id 0] /\
  effects (fireTimer 0%nat st') =
    effects st' ++ [CallData 7%nat sample_id (str "bye"); EmitData sample_id (str "bye")].
Proof.
  split; [vm_compute; reflexivity|].
  split; [vm_compute; reflexivity|].
  split; [vm_compute; reflexivity|].
  split; vm_compute; reflexivity.
Qed.

(** * Further properties of the registry operations *)

Lemma not_found_intro (sessionId : jstring) (st : Service) :
  getSession sessionId st = None -> not_found sessionId st.
Proof.
  intros H. unfold not_found, write, resize, killSession, getScrollback,
    getScrollbackAndClearPending. rewrite H. auto.
Qed.

Lemma getSession_unregistered (sessionId : jstring) (st : Service) :
  sessions st !! sessionId = None -> getSession sessionId st = None.
Proof. unfold getSession. intros ->. reflexivity. Qed.

(** X1: [killSession] on a registered id removes the entry whether or not
    [pty.kill] throws, and returns [true] exactly when it did not throw.
    Both timers of the session are disarmed and its handles reset, every
    other timer is left alone, the subscribers are not called, and the id
    is unknown to every operation afterwards. *)
Theorem killSession_removes_and_disarms
    (ptyKill : completion unit) (sessionId : jstring) (st : Service)
    (l : loc) (session : TerminalSession) :
  getSession sessionId st = Some (l, session) ->
  let st' := snd (killSession ptyKill sessionId st) in
  fst (killSession ptyKill sessionId st)
    = match ptyKill with Normal _ => true | Thrown => false end /\
  sessions st' = delete sessionId (sessions st) /\
  not_found sessionId st' /\
  armed (flushTimeout session) st' = false /\
  armed (resizeDebounceTimeout session) st' = false /\
  (forall t, flushTimeout session <> Some t -> resizeDebounceTimeout session <> Some t ->
     timers st' !! t = timers st !! t) /\
  objs st' !! l = Some (set_resizeDebounceTimeout None (set_flushTimeout None session)) /\
  effects st' = effects st ++
    match ptyKill with
    | Normal _ => [PtyKill (pty session) (Some (str "SIGKILL"))]
    | Thrown => []
    end.
Proof.
  intros Hget st'.
  destruct (killSession_disarms_timers ptyKill sessionId st l session Hget)
    as (Hgone & Hflush & Hsettle & _).
  fold st' in Hgone, Hflush, Hsettle.
  assert (Hnf : not_found sessionId st')
    by (apply not_found_intro, getSession_unregistered, Hgone).
  subst st'. revert Hnf Hflush Hsettle. unfold killSession. rewrite Hget.
  destruct session as [i p c ca sh sb ob ft rip rdt].
  destruct ft as [t|], rdt as [u|], ptyKill as [[]|]; simpl; intros Hnf Hflush Hsettle;
    rewrite ?app_nil_r, ?lookup_insert_eq;
    (split; [reflexivity|]); (split; [reflexivity|]); (split; [exact Hnf|]);
    (split; [exact Hflush|]); (split; [exact Hsettle|]);
    (split; [|split; reflexivity]);
    intros t' Ht Hu; rewrite ?lookup_delete_ne by congruence; reflexivity.
Qed.

Lemma killSession_removes_and_disarms_witness :
  let st := run [Output 0%nat (str "abc"); Resize (Normal tt) sample_id 100 30 true]
              sample_service in
  let st' := snd (killSession Thrown sample_id st) in
  fst (killSession Thrown sample_id st) = false /\
  sessions st' = delete sample_id (sessions st) /\
  not_found sample_id st' /\
  armed (Some 0%nat) st' = false /\
  armed (Some 1%nat) st' = false /\
  (forall t, Some 0%nat <> Some t -> Some 1%nat <> Some t ->
     timers st' !! t = timers st !! t) /\
  objs st' !! 0%nat =
    Some (mkSession sample_id 11%nat (str "/home/dev") 0 (str "/bin/sh")
            (str "abc") (str "abc") None true None) /\
  effects st' = effects st ++ [].
Proof.
  apply (killSession_removes_and_disarms Thrown sample_id
           (run [Output 0%nat (str "abc"); Resize (Normal tt) sample_id 100 30 true]
              sample_service) 0%nat
           (mkSession sample_id 11%nat (str "/home/dev") 0 (str "/bin/sh")
              (str "abc") (str "abc") (Some 0%nat) true (Some 1%nat))).
  vm_compute. reflexivity.
Defined.

(** X2: once the [onExit] handler of a session has run, its id is unknown:
    [write], [resize], [killSession] and both scrollback readers answer
    "not found" without throwing and without changing the service.  The
    handler calls every exit subscriber once, then the ["exit"] listeners,
    and leaves the session object and the data subscribers as they were. *)
Theorem exited_session_is_not_found
    (l : loc) (exitCode : Z) (st : Service) (session : TerminalSession) :
  objs st !! l = Some session ->
  let st' := ptyExit l exitCode st in
  not_found (id session) st' /\
  sessions st' = delete (id session) (sessions st) /\
  objs st' = objs st /\
  effects st' = effects st ++
    map (fun cb => CallExit cb (id session) exitCode) (exitCallbacks st)
    ++ [EmitExit (id session) exitCode].
Proof.
  intros Hobj st'. subst st'. unfold ptyExit. rewrite Hobj. simpl.
  split; [|auto].
  apply not_found_intro, getSession_unregistered. simpl. apply lookup_delete_eq.
Qed.

Lemma exited_session_is_not_found_witness :
  let st' := ptyExit 0%nat 130 sample_service in
  not_found sample_id st' /\
  sessions st' = delete sample_id (sessions sample_service) /\
  objs st' = objs sample_service /\
  effects st' = effects sample_service ++
    map (fun cb => CallExit cb sample_id 130) [9%nat] ++ [EmitExit sample_id 130].
Proof.
  apply (exited_session_is_not_found 0%nat 130 sample_service sample_session).
  vm_compute. reflexivity.
Defined.

(** X3: [getScrollbackAndClearPending] on a registered session returns the
    scrollback (or [null] when it is empty) and discards what was pending:
    after it, running [flushOutput] for the session or firing the flush
    timer that was scheduled does nothing, so the bytes that were pending
    are never handed to the subscribers.  The scrollback, the suppression
    flag and the settle timer are not touched, and nothing is delivered by
    the call itself. *)
Theorem cleared_pending_is_never_delivered
    (sessionId : jstring) (st : Service) (l : loc) (session : TerminalSession) :
  getSession sessionId st = Some (l, session) ->
  let st' := snd (getScrollbackAndClearPending sessionId st) in
  fst (getScrollbackAndClearPending sessionId st) = or_null (scrollbackBuffer session) /\
  objs st' !! l = Some (set_flushTimeout None (set_outputBuffer [] session)) /\
  flushOutput l st' = st' /\
  (forall t, flushTimeout session = Some t -> fireTimer t st' = st') /\
  (forall t, flushTimeout session <> Some t -> timers st' !! t = timers st !! t) /\
  effects st' = effects st /\
  sessions st' = sessions st.
Proof.
  intros Hget st'. subst st'. unfold getScrollbackAndClearPending. rewrite Hget.
  destruct session as [i p c ca sh sb ob [t|] rip rdt]; simpl.
  - split; [reflexivity|]. split; [apply lookup_insert_eq|].
    split; [unfold flushOutput; simpl; rewrite lookup_insert_eq; reflexivity|].
    split.
    { intros t' [= <-]. unfold fireTimer. simpl. rewrite lookup_delete_eq. reflexivity. }
    split; [|auto].
    intros t' Hne. apply lookup_delete_ne. congruence.
  - split; [reflexivity|]. split; [apply lookup_insert_eq|].
    split; [unfold flushOutput; simpl; rewrite lookup_insert_eq; reflexivity|].
    split; [intros t' H; discriminate H|]. auto.
Qed.

Lemma cleared_pending_is_never_delivered_witness :
  let st := run [Output 0%nat (str "abc")] sample_service in
  let st' := snd (getScrollbackAndClearPending sample_id st) in
  fst (getScrollbackAndClearPending sample_id st) = Some (str "abc") /\
  objs st' !! 0%nat =
    Some (mkSession sample_id 11%nat (str "/home/dev") 0 (str "/bin/sh")
            (str "abc") [] None false None) /\
  flushOutput 0%nat st' = st' /\
  (forall t, Some 0%nat = Some t -> fireTimer t st' = st') /\
  (forall t, Some 0%nat <> Some t -> timers st' !! t = timers st !! t) /\
  effects st' = effects st /\
  sessions st' = sessions st.
Proof.
  apply (cleared_pending_is_never_delivered sample_id
           (run [Output 0%nat (str "abc")] sample_service) 0%nat
           (mkSession sample_id 11%nat (str "/home/dev") 0 (str "/bin/sh")
              (str "abc") (str "abc") (Some 0%nat) false None)).
  vm_compute. reflexivity.
Defined.

Lemma resolveWorkingDirectory_normal (h : Host) (requestedCwd : option jstring) :
  exists dir, resolveWorkingDirectory h requestedCwd = Normal dir.
Proof.
  destruct requestedCwd as [[|c r]|]; simpl; eauto.
  unfold statSync_isDirectory.
  destruct (statSync h (cleanPath (c :: r))); simpl; eauto.
Qed.

(** X4: a [createSession] call below the limit whose [pty.spawn] returns
    registers a new session under the generated id: looking the id up gives
    the new object, with empty scrollback and pending buffer, no timers and
    no suppression, the resolved working directory and the requested or
    detected shell; [getScrollback] on it is [null]; the session count grows
    by one when the id was free; no timer is armed and no subscriber is
    called. *)
Theorem createSession_registers
    (inp : CreateInput) (st : Service) (p : pty_handle) :
  num_ge (Num (getSessionCount st)) (maxSessions st) = false ->
  spawn inp = Normal p ->
  let sid := str "term-" ++ now inp ++ str "-" ++ random36 inp in
  let st' := snd (createSession inp st) in
  exists session,
    fst (createSession inp st) = Normal (Some (next_loc st)) /\
    getSession sid st' = Some (next_loc st, session) /\
    session = mkSession sid p (cwd session) (created inp)
                (or_else (opt_shell (options inp)) (fst (detectShell (host inp))))
                [] [] None false None /\
    resolveWorkingDirectory (host inp) (opt_cwd (options inp)) = Normal (cwd session) /\
    getScrollback sid st' = None /\
    (sessions st !! sid = None -> getSessionCount st' = getSessionCount st + 1) /\
    (forall other, other <> sid -> sessions st' !! other = sessions st !! other) /\
    timers st' = timers st /\
    effects st' = effects st ++
      [PtySpawn (shell session) (snd (detectShell (host inp)))
         (num_or_else (opt_cols (options inp)) 80)
         (num_or_else (opt_rows (options inp)) 24) (cwd session)].
Proof.
  intros Hroom Hspawn sid st'. subst st'. unfold createSession.
  rewrite Hroom, Hspawn. fold sid.
  destruct (detectShell (host inp)) as [detectedShell shellArgs].
  destruct (resolveWorkingDirectory_normal (host inp) (opt_cwd (options inp)))
    as (dir & Hdir).
  rewrite Hdir. simpl.
  eexists. split; [reflexivity|].
  split; [apply getSession_intro; simpl; apply lookup_insert_eq|].
  simpl. split; [reflexivity|]. split; [reflexivity|].
  split.
  { unfold getScrollback.
    erewrite getSession_intro by (simpl; apply lookup_insert_eq). reflexivity. }
  split.
  { intros Hfree. unfold getSessionCount. simpl.
    rewrite map_size_insert_None by assumption. lia. }
  split; [intros other Hne; apply lookup_insert_ne; congruence|].
  auto.
Qed.

Lemma createSession_registers_witness :
  let inp := sample_input "1700000000001" 12%nat in
  let sid := str "term-" ++ now inp ++ str "-" ++ random36 inp in
  let st' := snd (createSession inp sample_service) in
  exists session,
    fst (createSession inp sample_service) = Normal (Some 1%nat) /\
    getSession sid st' = Some (1%nat, session) /\
    session = mkSession sid 12%nat (cwd session) 0 (str "/bin/sh") [] [] None false None /\
    resolveWorkingDirectory sample_host None = Normal (cwd session) /\
    getScrollback sid st' = None /\
    (sessions sample_service !! sid = None ->
     getSessionCount st' = getSessionCount sample_service + 1) /\
    (forall other, other <> sid ->
     sessions st' !! other = sessions sample_service !! other) /\
    timers st' = timers sample_service /\
    effects st' = effects sample_service ++
      [PtySpawn (shell session) [] 80 24 (cwd session)].
Proof.
  apply (createSession_registers (sample_input "1700000000001" 12%nat)
           sample_service 12%nat).
  - vm_compute. reflexivity.
  - reflexivity.
Defined.

(** X5: [createSession] is all or nothing.  When it does not return a
    session (the limit is reached, or [pty.spawn] throws and the exception
    is passed on) the service is exactly as before: no registry entry, no
    session object, no timer, no call to a subscriber.  With room left, a
    throwing [pty.spawn] gives an exception, not [null]. *)
Theorem createSession_all_or_nothing (inp : CreateInput) (st : Service) :
  ((forall l, fst (createSession inp st) <> Normal (Some l)) ->
   snd (createSession inp st) = st) /\
  (spawn inp = Thrown ->
   snd (createSession inp st) = st /\
   fst (createSession inp st) =
     if num_ge (Num (getSessionCount st)) (maxSessions st) then Normal None else Thrown).
Proof.
  unfold createSession.
  destruct (num_ge (Num (getSessionCount st)) (maxSessions st)); [auto|].
  destruct (detectShell (host inp)) as [detectedShell shellArgs].
  destruct (resolveWorkingDirectory_normal (host inp) (opt_cwd (options inp)))
    as (dir & ->).
  destruct (spawn inp) as [p|]; simpl; [|auto].
  split; [|discriminate].
  intros Hnone. exfalso. apply (Hnone (next_loc st)). reflexivity.
Qed.

(** X6: at the limit, removing a session makes room for exactly one more.
    With [C] sessions registered and the limit at [C], [createSession] is
    refused; after [killSession] on a registered id (whether or not
    [pty.kill] throws) the next [createSession] whose [pty.spawn] returns
    succeeds. *)
Theorem kill_makes_room
    (C : Z) (inp : CreateInput) (ptyKill : completion unit) (sessionId : jstring)
    (st : Service) (l : loc) (session : TerminalSession) (p : pty_handle) :
  maxSessions st = Num C ->
  getSessionCount st = C ->
  getSession sessionId st = Some (l, session) ->
  spawn inp = Normal p ->
  let st' := snd (killSession ptyKill sessionId st) in
  createSession inp st = (Normal None, st) /\
  getSessionCount st' = C - 1 /\
  exists l', fst (createSession inp st') = Normal (Some l') /\
             getSessionCount (snd (createSession inp st')) <= C.
Proof.
  intros HC Hcount Hget Hspawn st'.
  split; [apply (createSession_rejects inp st C); [assumption|lia]|].
  destruct (getSession_Some _ _ _ _ Hget) as [Hs _].
  assert (Hmax : maxSessions st' = Num C).
  { pose proof (step_maxSessions (Kill ptyKill sessionId) st) as H.
    simpl in H. subst st'. rewrite H. exact HC. }
  assert (Hsess : sessions st' = delete sessionId (sessions st)).
  { subst st'. unfold killSession. rewrite Hget.
    destruct session as [i p0 c ca sh sb ob [t|] rip [u|]], ptyKill; reflexivity. }
  assert (Hcount' : getSessionCount st' = C - 1).
  { unfold getSessionCount in *. rewrite Hsess.
    rewrite map_size_delete, Hs.
    assert (size (sessions st) <> 0%nat).
    { intros Hz. apply map_size_empty_iff in Hz. rewrite Hz, lookup_empty in Hs.
      discriminate. }
    lia. }
  split; [exact Hcount'|].
  exists (next_loc st'). split.
  - unfold createSession. rewrite Hmax, Hspawn. simpl.
    replace (C <=? getSessionCount st') with false
      by (symmetry; apply Z.leb_gt; lia).
    destruct (detectShell (host inp)) as [detectedShell shellArgs].
    destruct (resolveWorkingDirectory_normal (host inp) (opt_cwd (options inp)))
      as (dir & ->).
    reflexivity.
  - apply createSession_count; [exact Hmax|lia].
Qed.

Lemma kill_makes_room_witness :
  let st := run [SetMax (Num 1); Create (sample_input "1700000000000" 11%nat)]
              (newService None) in
  let inp := sample_input "1700000000001" 12%nat in
  let st' := snd (killSession (Normal tt) sample_id st) in
  createSession inp st = (Normal None, st) /\
  getSessionCount st' = 1 - 1 /\
  exists l', fst (createSession inp st') = Normal (Some l') /\
             getSessionCount (snd (createSession inp st')) <= 1.
Proof.
  apply (kill_makes_room 1 (sample_input "1700000000001" 12%nat) (Normal tt) sample_id
           (run [SetMax (Num 1); Create (sample_input "1700000000000" 11%nat)]
              (newService None))
           0%nat sample_session 12%nat).
  - reflexivity.
  - vm_compute. reflexivity.
  - vm_compute. reflexivity.
  - reflexivity.
Defined.

Lemma run_keeps_limit (es : list event) (st : Service) :
  Forall (fun e => match e with
                   | SetMax limit => in_valid_range limit = false
                   | _ => True
                   end) es ->
  maxSessions (run es st) = maxSessions st.
Proof.
  revert st. induction es as [|e es IH]; intros st Hes; [reflexivity|].
  apply Forall_cons in Hes as [He Hes]. simpl. rewrite (IH _ Hes).
  rewrite step_maxSessions. destruct e; try reflexivity. rewrite He. reflexivity.
Qed.

(** X7: when [TERMINAL_MAX_SESSIONS] holds text that [parseInt] cannot read
    as a number, the limit starts as NaN and the test
    [sessions.size >= maxSessions] is never true: until [setMaxSessions] is
    given a limit in range, no [createSession] call is refused, whatever the
    number of sessions. *)
Theorem unparsable_limit_never_refuses
    (v : jstring) (es : list event) (inp : CreateInput) :
  v <> [] ->
  parseInt v = NaN ->
  Forall (fun e => match e with
                   | SetMax limit => in_valid_range limit = false
                   | _ => True
                   end) es ->
  let st := run es (newService (Some v)) in
  getMaxSessions st = NaN /\
  fst (createSession inp st) <> Normal None /\
  (forall p, spawn inp = Normal p ->
     fst (createSession inp st) = Normal (Some (next_loc st))).
Proof.
  intros Hv Hnan Hes st.
  assert (Hmax : maxSessions st = NaN).
  { subst st. rewrite run_keeps_limit by assumption. simpl.
    unfold startupMaxSessions. destruct v; [congruence|exact Hnan]. }
  split; [exact Hmax|].
  unfold createSession. rewrite Hmax. simpl.
  destruct (detectShell (host inp)) as [detectedShell shellArgs].
  destruct (resolveWorkingDirectory_normal (host inp) (opt_cwd (options inp)))
    as (dir & ->).
  destruct (spawn inp) as [p|]; simpl.
  - split; [discriminate|]. intros p' _. reflexivity.
  - split; [discriminate|]. intros p' H. discriminate H.
Qed.

Lemma unparsable_limit_never_refuses_witness :
  let es := [Create (sample_input "1700000000000" 11%nat); SetMax (Num 0);
             Create (sample_input "1700000000001" 12%nat)] in
  let inp := sample_input "1700000000002" 13%nat in
  let st := run es (newService (Some (str "unlimited"))) in
  getMaxSessions st = NaN /\
  fst (createSession inp st) <> Normal None /\
  (forall p, spawn inp = Normal p ->
     fst (createSession inp st) = Normal (Some (next_loc st))).
Proof.
  apply (unparsable_limit_never_refuses (str "unlimited")
           [Create (sample_input "1700000000000" 11%nat); SetMax (Num 0);
            Create (sample_input "1700000000001" 12%nat)]
           (sample_input "1700000000002" 13%nat)).
  - discriminate.
  - reflexivity.
  - repeat constructor.
Defined.

(** * Further properties of the resize suppressor *)

(** A suppressing [resize] whose [pty.resize] returns. *)
Lemma resize_suppress_fields
    (sessionId : jstring) (cols rows : Z) (st : Service)
    (l : loc) (session : TerminalSession) :
  getSession sessionId st = Some (l, session) ->
  let st' := snd (resize (Normal tt) sessionId cols rows true st) in
  fst (resize (Normal tt) sessionId cols rows true st) = true /\
  sessions st' = sessions st /\
  objs st' = <[l := set_resizeDebounceTimeout (Some (next_timer st))
                      (set_resizeInProgress true session)]> (objs st) /\
  timers st' = <[next_timer st := SettleTask l]>
                 (match resizeDebounceTimeout session with
                  | Some u => delete u (timers st)
                  | None => timers st
                  end) /\
  next_timer st' = S (next_timer st) /\
  dataCallbacks st' = dataCallbacks st /\
  effects st' = effects st ++ [PtyResize (pty session) cols rows].
Proof.
  intros Hget st'. subst st'. unfold resize. rewrite Hget.
  destruct session as [i p c ca sh sb ob ft rip [u|]]; simpl;
    rewrite ?insert_insert_eq; auto 10.
Qed.

Lemma fireTimer_settle (t : timer_id) (l : loc) (st : Service) (session : TerminalSession) :
  timers st !! t = Some (SettleTask l) ->
  objs st !! l = Some session ->
  fireTimer t st =
    store l (set_resizeDebounceTimeout None (set_resizeInProgress false session))
      (clearTimeout t st).
Proof.
  intros Ht Hobj. unfold fireTimer. rewrite Ht. unfold settle. simpl.
  rewrite Hobj. reflexivity.
Qed.

Lemma fireTimer_unarmed (t : timer_id) (st : Service) :
  timers st !! t = None -> fireTimer t st = st.
Proof. intros H. unfold fireTimer. rewrite H. reflexivity. Qed.

(** X8: a second suppressing [resize] cancels the settle timer of the
    first and starts its own.  After two such calls only the second timer is
    armed for the session; the first handle, were it to fire, does nothing;
    the session stays suppressed until the second timer fires, which clears
    the flag and the handle and leaves both buffers as they were. *)
Theorem resize_restarts_settle_timer
    (sessionId : jstring) (cols rows cols' rows' : Z) (st : Service)
    (l : loc) (session : TerminalSession) :
  getSession sessionId st = Some (l, session) ->
  let t1 := next_timer st in
  let t2 := S t1 in
  let st1 := snd (resize (Normal tt) sessionId cols rows true st) in
  let st2 := snd (resize (Normal tt) sessionId cols' rows' true st1) in
  timers st1 !! t1 = Some (SettleTask l) /\
  timers st2 !! t1 = None /\
  timers st2 !! t2 = Some (SettleTask l) /\
  fireTimer t1 st2 = st2 /\
  objs st2 !! l = Some (set_resizeDebounceTimeout (Some t2)
                          (set_resizeInProgress true session)) /\
  objs (fireTimer t2 st2) !! l =
    Some (set_resizeDebounceTimeout None (set_resizeInProgress false session)) /\
  timers (fireTimer t2 st2) !! t2 = None.
Proof.
  intros Hget t1 t2 st1 st2.
  destruct (getSession_Some _ _ _ _ Hget) as [Hs Ho].
  destruct (resize_suppress_fields sessionId cols rows st l session Hget)
    as (_ & Hs1 & Ho1 & Ht1 & Hn1 & _).
  fold st1 t1 in Hs1, Ho1, Ht1, Hn1.
  assert (Hget1 : getSession sessionId st1 =
                  Some (l, set_resizeDebounceTimeout (Some t1)
                             (set_resizeInProgress true session))).
  { apply getSession_intro; [rewrite Hs1; exact Hs|].
    rewrite Ho1. apply lookup_insert_eq. }
  destruct (resize_suppress_fields sessionId cols' rows' st1 l _ Hget1)
    as (_ & Hs2 & Ho2 & Ht2 & Hn2 & _).
  fold st2 in Hs2, Ho2, Ht2, Hn2. rewrite Hn1 in Ht2, Ho2. fold t2 in Ht2, Ho2.
  simpl in Ht2, Ho2.
  assert (Hne : t2 <> t1) by (subst t2; lia).
  assert (H1 : timers st1 !! t1 = Some (SettleTask l))
    by (rewrite Ht1; apply lookup_insert_eq).
  assert (H21 : timers st2 !! t1 = None).
  { rewrite Ht2, lookup_insert_ne by exact Hne. apply lookup_delete_eq. }
  assert (H22 : timers st2 !! t2 = Some (SettleTask l))
    by (rewrite Ht2; apply lookup_insert_eq).
  assert (Hobj2 : objs st2 !! l = Some (set_resizeDebounceTimeout (Some t2)
                                          (set_resizeInProgress true session))).
  { rewrite Ho2, lookup_insert_eq. destruct session; reflexivity. }
  split; [exact H1|]. split; [exact H21|]. split; [exact H22|].
  split; [apply fireTimer_unarmed, H21|]. split; [exact Hobj2|].
  rewrite (fireTimer_settle t2 l st2 _ H22 Hobj2). simpl.
  rewrite lookup_insert_eq, lookup_delete_eq.
  split; [destruct session; reflexivity|reflexivity].
Qed.

Lemma resize_restarts_settle_timer_witness :
  let st1 := snd (resize (Normal tt) sample_id 100 30 true sample_service) in
  let st2 := snd (resize (Normal tt) sample_id 120 40 true st1) in
  timers st1 !! 0%nat = Some (SettleTask 0%nat) /\
  timers st2 !! 0%nat = None /\
  timers st2 !! 1%nat = Some (SettleTask 0%nat) /\
  fireTimer 0%nat st2 = st2 /\
  objs st2 !! 0%nat = Some (set_resizeDebounceTimeout (Some 1%nat)
                              (set_resizeInProgress true sample_session)) /\
  objs (fireTimer 1%nat st2) !! 0%nat =
    Some (set_resizeDebounceTimeout None (set_resizeInProgress false sample_session)) /\
  timers (fireTimer 1%nat st2) !! 1%nat = None.
Proof.
  apply (resize_restarts_settle_timer sample_id 100 30 120 40 sample_service
           0%nat sample_session).
  vm_compute. reflexivity.
Defined.

(** X9: the suppression window, end to end.  A suppressing [resize] on a
    session with nothing pending, then output [dropped] while the settle
    timer runs, then the settle timer, then output [kept] of at most one
    batch and its flush: [dropped] reaches neither the scrollback nor the
    subscribers, [kept] is appended to the scrollback and delivered in one
    piece, and the session ends not suppressed with nothing pending. *)
Theorem output_resumes_after_settle
    (sessionId : jstring) (cols rows : Z) (dropped kept : jstring)
    (st : Service) (l : loc) (session : TerminalSession) :
  getSession sessionId st = Some (l, session) ->
  outputBuffer session = [] ->
  flushTimeout session = None ->
  kept <> [] ->
  (length kept <= Z.to_nat OUTPUT_BATCH_SIZE)%nat ->
  let t := next_timer st in
  let st' := run [Resize (Normal tt) sessionId cols rows true; Output l dropped;
                  Timer t; Output l kept; Timer (S t)] st in
  exists session',
    objs st' !! l = Some session' /\
    scrollbackBuffer session' =
      most_recent (Z.to_nat MAX_SCROLLBACK_SIZE) (scrollbackBuffer session ++ kept) /\
    outputBuffer session' = [] /\
    flushTimeout session' = None /\
    resizeInProgress session' = false /\
    resizeDebounceTimeout session' = None /\
    effects st' = effects st ++ PtyResize (pty session) cols rows
                  :: deliveries (dataCallbacks st) (id session) [kept].
Proof.
  intros Hget Hob Hft Hne Hle t st'.
  destruct (getSession_Some _ _ _ _ Hget) as [Hs Ho].
  (* the resize *)
  destruct (resize_suppress_fields sessionId cols rows st l session Hget)
    as (_ & _ & Ho1 & Ht1 & Hn1 & Hcb1 & He1).
  set (st1 := snd (resize (Normal tt) sessionId cols rows true st)) in *.
  set (s1 := set_resizeDebounceTimeout (Some (next_timer st))
               (set_resizeInProgress true session)) in *.
  assert (Hobj1 : objs st1 !! l = Some s1) by (rewrite Ho1; apply lookup_insert_eq).
  (* the dropped output *)
  pose proof (ptyData_suppressed l dropped st1 s1 Hobj1 eq_refl) as Hdrop.
  (* the settle timer *)
  assert (Htimer1 : timers st1 !! t = Some (SettleTask l))
    by (rewrite Ht1; apply lookup_insert_eq).
  pose proof (fireTimer_settle t l st1 s1 Htimer1 Hobj1) as Hsettle.
  set (s2 := set_resizeDebounceTimeout None (set_resizeInProgress false s1)) in *.
  set (st2 := store l s2 (clearTimeout t st1)) in *.
  assert (Hobj2 : objs st2 !! l = Some s2) by (simpl; apply lookup_insert_eq).
  (* the kept output *)
  destruct (ptyData_normal l kept st2 s2 Hobj2 eq_refl)
    as (s3 & Hobj3 & Hsb3 & Hob3 & Hflag3 & Hid3 & _ & He3).
  assert (Hft2 : flushTimeout s2 = None) by (subst s2 s1; simpl; exact Hft).
  destruct (ptyData_schedules l kept st2 s2 Hobj2 eq_refl Hft2) as (Htm3 & _ & Hcb3).
  assert (Hrest3 : resizeDebounceTimeout s3 = None).
  { revert Hobj3. unfold ptyData. rewrite Hobj2. subst s2 s1.
    destruct session as [i p c ca sh sb ob ft rip rdt]; simpl in *. subst ft.
    destruct (MAX_SCROLLBACK_SIZE <? Z.of_nat (length (sb ++ kept))); simpl;
      rewrite lookup_insert_eq; intros [= <-]; reflexivity. }
  set (st3 := ptyData l kept st2) in *.
  assert (Hnext2 : next_timer st2 = S t) by (simpl; exact Hn1).
  rewrite Hnext2 in Htm3.
  (* its flush *)
  pose proof (fireTimer_flush (S t) l st3 Htm3) as Hfire.
  assert (Hob3' : outputBuffer s3 = kept).
  { rewrite Hob3. subst s2 s1. simpl. rewrite Hob. reflexivity. }
  destruct (flushOutput_rest l (clearTimeout (S t) st3) s3 Hobj3)
    as (Hobj4 & _ & _ & _ & He4).
  { rewrite Hob3'. exact Hne. }
  { rewrite Hob3'. exact Hle. }
  rewrite <- Hfire in Hobj4, He4. simpl in He4.
  assert (Hst' : st' = fireTimer (S t) st3).
  { subst st' st3. simpl. fold st1. rewrite Hdrop.
    unfold t at 1. rewrite Hsettle. reflexivity. }
  rewrite Hst'.
  exists (set_flushTimeout None (set_outputBuffer [] s3)).
  split; [exact Hobj4|]. simpl.
  split; [rewrite Hsb3; subst s2 s1; reflexivity|].
  split; [reflexivity|]. split; [reflexivity|].
  split; [exact Hflag3|]. split; [exact Hrest3|].
  rewrite He4, Hcb3, He3, Hid3, Hob3'. simpl. rewrite Hcb1, He1, <- app_assoc.
  subst s2 s1. reflexivity.
Qed.

Lemma output_resumes_after_settle_witness :
  let st' := run [Resize (Normal tt) sample_id 100 30 true; Output 0%nat (str "$ $ ");
                  Timer 0%nat; Output 0%nat (str "make"); Timer 1%nat] sample_service in
  exists session',
    objs st' !! 0%nat = Some session' /\
    scrollbackBuffer session' =
      most_recent (Z.to_nat MAX_SCROLLBACK_SIZE) ([] ++ str "make") /\
    outputBuffer session' = [] /\
    flushTimeout session' = None /\
    resizeInProgress session' = false /\
    resizeDebounceTimeout session' = None /\
    effects st' = effects sample_service ++ PtyResize 11%nat 100 30
                  :: deliveries [7%nat] sample_id [str "make"].
Proof.
  apply (output_resumes_after_settle sample_id 100 30 (str "$ $ ") (str "make")
           sample_service 0%nat sample_session).
  - vm_compute. reflexivity.
  - reflexivity.
  - reflexivity.
  - discriminate.
  - vm_compute. lia.
Defined.

(** * Further properties of the output scheduler *)

Lemma flushOutput_moves_batches (l : loc) (st : Service) (session : TerminalSession) :
  objs st !! l = Some session ->
  exists session' sent,
    objs (flushOutput l st) !! l = Some session' /\
    resizeInProgress session' = resizeInProgress session /\
    scrollbackBuffer session' = scrollbackBuffer session /\
    id session' = id session /\
    dataCallbacks (flushOutput l st) = dataCallbacks st /\
    effects (flushOutput l st) =
      effects st ++ deliveries (dataCallbacks st) (id session) sent /\
    concat sent ++ outputBuffer session' = outputBuffer session /\
    Forall (fun chunk => chunk <> [] /\
                         (length chunk <= Z.to_nat OUTPUT_BATCH_SIZE)%nat) sent.
Proof.
  intros Hobj.
  destruct (flushOutput_cases l st session Hobj) as (Hnil & Hrest & Hbatch).
  destruct (decide (outputBuffer session = [])) as [E|Hne].
  { exists session, []. rewrite (Hnil E). simpl. rewrite app_nil_r. auto 10. }
  destruct (Nat.le_gt_cases (length (outputBuffer session)) (Z.to_nat OUTPUT_BATCH_SIZE))
    as [Hle|Hgt].
  - exists (set_flushTimeout None (set_outputBuffer [] session)), [outputBuffer session].
    rewrite (Hrest Hne Hle). simpl. rewrite lookup_insert_eq, !app_nil_r.
    repeat (split; [reflexivity|]). constructor; [auto|constructor].
  - exists (set_flushTimeout (Some (next_timer st))
              (set_outputBuffer (drop (Z.to_nat OUTPUT_BATCH_SIZE) (outputBuffer session))
                 session)),
           [take (Z.to_nat OUTPUT_BATCH_SIZE) (outputBuffer session)].
    rewrite (Hbatch Hgt). simpl. rewrite lookup_insert_eq, !app_nil_r, take_drop.
    repeat (split; [reflexivity|]). constructor; [|constructor]. split.
    + intros Hnil'. apply (f_equal length) in Hnil'. rewrite length_take in Hnil'.
      cbn [length] in Hnil'. unfold OUTPUT_BATCH_SIZE in *. lia.
    + rewrite length_take. lia.
Qed.

Lemma ptyData_dataCallbacks (l : loc) (data : jstring) (st : Service) :
  dataCallbacks (ptyData l data st) = dataCallbacks st.
Proof. unfold ptyData. split_cases; reflexivity. Qed.

Lemma chunks_of_output (l : loc) (data : jstring) (es : list event) :
  chunks_of l (Output l data :: es) = data :: chunks_of l es.
Proof. unfold chunks_of. simpl. destruct (decide (l = l)); [reflexivity|congruence]. Qed.

Lemma chunks_of_timer (l : loc) (t : timer_id) (es : list event) :
  chunks_of l (Timer t :: es) = chunks_of l es.
Proof. reflexivity. Qed.

(** X10: delivery is first in, first out and loses nothing.  For a session
    that is not suppressed, over any interleaving of its output events and
    firings of its flush timer, the chunks handed to the subscribers followed
    by what is still pending are exactly what was pending at the start
    followed by all the output received, in order; every delivered chunk is
    non-empty and at most [OUTPUT_BATCH_SIZE] long; and the scrollback holds
    the most recent [MAX_SCROLLBACK_SIZE] code units of the output whether
    or not it has been delivered yet. *)
Theorem delivery_is_fifo
    (l : loc) (st : Service) (es : list event) (st' : Service)
    (session : TerminalSession) :
  window l st es st' ->
  objs st !! l = Some session ->
  resizeInProgress session = false ->
  (length (scrollbackBuffer session) <= Z.to_nat MAX_SCROLLBACK_SIZE)%nat ->
  exists session' sent,
    objs st' !! l = Some session' /\
    effects st' = effects st ++ deliveries (dataCallbacks st) (id session) sent /\
    concat sent ++ outputBuffer session' =
      outputBuffer session ++ concat (chunks_of l es) /\
    Forall (fun chunk => chunk <> [] /\
                         (length chunk <= Z.to_nat OUTPUT_BATCH_SIZE)%nat) sent /\
    scrollbackBuffer session' =
      most_recent (Z.to_nat MAX_SCROLLBACK_SIZE)
        (scrollbackBuffer session ++ concat (chunks_of l es)).
Proof.
  intros Hw. revert session.
  induction Hw as [st|st data es st' Hw IH|st t es st' Ht Hw IH];
    intros session Hobj Hflag Hlen.
  - exists session, []. simpl. rewrite !app_nil_r, most_recent_all by assumption.
    split; [exact Hobj|]. split; [reflexivity|]. split; [reflexivity|].
    split; [constructor|reflexivity].
  - destruct (ptyData_normal l data st session Hobj Hflag)
      as (s1 & Hobj1 & Hsb1 & Hob1 & Hflag1 & Hid1 & _ & He1).
    destruct (IH s1 Hobj1 Hflag1) as (s2 & sent & Hobj2 & He2 & Hcat2 & Hall2 & Hsb2).
    { rewrite Hsb1, most_recent_length. lia. }
    exists s2, sent. rewrite chunks_of_output. simpl.
    split; [exact Hobj2|].
    split; [rewrite He2, He1, ptyData_dataCallbacks, Hid1; reflexivity|].
    split; [rewrite Hcat2, Hob1, <- app_assoc; reflexivity|].
    split; [exact Hall2|].
    rewrite Hsb2, Hsb1, most_recent_app, <- app_assoc. reflexivity.
  - rewrite (fireTimer_flush t l st Ht) in IH.
    destruct (flushOutput_moves_batches l (clearTimeout t st) session Hobj)
      as (s1 & sent1 & Hobj1 & Hflag1 & Hsb1 & Hid1 & Hcb1 & He1 & Hcat1 & Hall1).
    destruct (IH s1 Hobj1) as (s2 & sent2 & Hobj2 & He2 & Hcat2 & Hall2 & Hsb2).
    { rewrite Hflag1. exact Hflag. }
    { rewrite Hsb1. exact Hlen. }
    exists s2, (sent1 ++ sent2). rewrite chunks_of_timer.
    split; [exact Hobj2|]. split.
    { rewrite He2, He1, Hcb1, Hid1. simpl.
      rewrite deliveries_app, app_assoc. reflexivity. }
    split.
    { rewrite concat_app, <- app_assoc, Hcat2, app_assoc, Hcat1. reflexivity. }
    split; [apply Forall_app; auto|].
    rewrite Hsb2, Hsb1. reflexivity.
Qed.

Lemma delivery_is_fifo_witness :
  let es := [Output 0%nat (str "ab"); Timer 0%nat; Output 0%nat (str "cd");
             Output 0%nat (str "ef")] in
  exists session' sent,
    objs (run es sample_service) !! 0%nat = Some session' /\
    effects (run es sample_service) =
      effects sample_service ++ deliveries [7%nat] sample_id sent /\
    concat sent ++ outputBuffer session' = [] ++ concat (chunks_of 0%nat es) /\
    Forall (fun chunk => chunk <> [] /\
                         (length chunk <= Z.to_nat OUTPUT_BATCH_SIZE)%nat) sent /\
    scrollbackBuffer session' =
      most_recent (Z.to_nat MAX_SCROLLBACK_SIZE) ([] ++ concat (chunks_of 0%nat es)).
Proof.
  intros es.
  apply (delivery_is_fifo 0%nat sample_service es (run es sample_service) sample_session).
  - apply window_output, window_flush; [vm_compute; reflexivity|].
    apply window_output, window_output, window_done.
  - vm_compute. reflexivity.
  - reflexivity.
  - simpl. lia.
Defined.





(** * Subscribers *)

Lemma received_app (cb : callback) (a b : list effect) :
  received cb (a ++ b) = received cb a ++ received cb b.
Proof. unfold received. apply omap_app. Qed.

Lemma received_exit_calls (cb : callback) (sid : jstring) (code : Z) (subs : list callback) :
  received cb (map (fun c => CallExit c sid code) subs) = [].
Proof. induction subs as [|c subs IH]; [reflexivity|exact IH]. Qed.

Lemma received_perform_absent (cb : callback) (es : list effect) (st : Service) :
  received cb es = [] ->
  received cb (effects (perform es st)) = received cb (effects st).
Proof. intros H. simpl. rewrite received_app, H, app_nil_r. reflexivity. Qed.

Lemma received_notifyData_absent (cb : callback) (sid data : jstring) (st : Service) :
  cb ∉ dataCallbacks st ->
  received cb (effects (notifyData sid data st)) = received cb (effects st).
Proof.
  intros H. unfold notifyData. apply received_perform_absent.
  rewrite received_app, received_calls_absent by assumption. reflexivity.
Qed.

Lemma received_deliveries_absent (cb : callback) (sid : jstring) (subs : list callback)
    (chunks : list jstring) :
  cb ∉ subs -> received cb (deliveries subs sid chunks) = [].
Proof.
  intros Habsent. induction chunks as [|chunk chunks IH]; [reflexivity|].
  change (deliveries subs sid (chunk :: chunks))
    with ((map (fun c => CallData c sid chunk) subs ++ [EmitData sid chunk])
          ++ deliveries subs sid chunks).
  rewrite !received_app, IH, received_calls_absent by assumption. reflexivity.
Qed.

(** A callback that is not subscribed is not called by any one event. *)
Lemma step_received_absent (cb : callback) (e : event) (st : Service) :
  cb ∉ dataCallbacks st ->
  received cb (effects (step e st)) = received cb (effects st).
Proof.
  intros Habsent.
  destruct e; simpl;
    try (unfold createSession, write, resize, killSession, getScrollbackAndClearPending,
           setMaxSessions, onData, offData, onExit, offExit, ptyData;
         split_cases; simpl; rewrite ?received_app; simpl; rewrite ?app_nil_r;
         reflexivity).
  - unfold ptyExit. destruct (objs st !! l); [|reflexivity].
    unfold notifyExit. rewrite received_perform_absent; [reflexivity|].
    rewrite received_app, received_exit_calls. reflexivity.
  - unfold fireTimer. destruct (timers st !! t) as [[l|l]|]; [| |reflexivity].
    + destruct (objs (clearTimeout t st) !! l) as [session|] eqn:Hobj.
      * destruct (flushOutput_moves_pending l (clearTimeout t st) session Hobj)
          as (s' & sent & _ & _ & _ & _ & _ & Heff & _).
        rewrite Heff, received_app, received_deliveries_absent by exact Habsent.
        apply app_nil_r.
      * unfold flushOutput. rewrite Hobj. reflexivity.
    + unfold settle. simpl. split_cases; reflexivity.
Qed.

Lemma step_keeps_unsubscribed (cb : callback) (e : event) (st : Service) :
  e <> OnData cb ->
  cb ∉ dataCallbacks st ->
  cb ∉ dataCallbacks (step e st).
Proof.
  intros He Habsent.
  destruct e; simpl;
    try (unfold createSession, write, resize, killSession, getScrollbackAndClearPending,
           setMaxSessions, onExit, offExit, ptyData, ptyExit, fireTimer, flushOutput,
           settle, notifyData, notifyExit;
         split_cases; simpl; exact Habsent).
  - unfold set_add. destruct (decide (cb0 ∈ dataCallbacks st)); [exact Habsent|].
    intros Hin. apply elem_of_app in Hin as [Hin|Hin]; [contradiction|].
    apply list_elem_of_singleton in Hin. subst. congruence.
  - unfold set_delete. intros Hin. apply list_elem_of_filter in Hin as [_ Hin].
    contradiction.
Qed.

(** X12: a callback removed by the function [onData] returned is not called
    again.  After the unsubscription, over any events of the service in which
    that callback is not subscribed anew, it receives nothing more, whatever
    output the sessions produce and whatever other subscribers come and
    go. *)
Theorem unsubscribed_callback_is_not_called
    (cb : callback) (es : list event) (st : Service) :
  Forall (fun e => e <> OnData cb) es ->
  received cb (effects (run es (offData cb st))) = received cb (effects st) /\
  cb ∉ dataCallbacks (run es (offData cb st)).
Proof.
  intros Hes.
  assert (Hstart : cb ∉ dataCallbacks (offData cb st)).
  { simpl. unfold set_delete. intros Hin.
    apply list_elem_of_filter in Hin as [Hne _]. congruence. }
  change (effects st) with (effects (offData cb st)).
  generalize dependent (offData cb st). clear st.
  induction es as [|e es IH]; intros st Habsent; [auto|].
  apply Forall_cons in Hes as [He Hes]. simpl.
  destruct (IH Hes (step e st) (step_keeps_unsubscribed cb e st He Habsent))
    as [Hrec Hout].
  split; [|exact Hout].
  rewrite Hrec. apply step_received_absent, Habsent.
Qed.

Lemma unsubscribed_callback_is_not_called_witness :
  let es := [Output 0%nat (str "abc"); OnData 8%nat; Timer 0%nat] in
  received 7%nat (effects (run es (offData 7%nat sample_service)))
    = received 7%nat (effects sample_service) /\
  7%nat ∉ dataCallbacks (run es (offData 7%nat sample_service)).
Proof.
  apply (unsubscribed_callback_is_not_called 7%nat
           [Output 0%nat (str "abc"); OnData 8%nat; Timer 0%nat] sample_service).
  repeat constructor; discriminate.
Defined.

(** * Shell detection *)

(** X13: outside Windows, a [SHELL] variable naming a file that exists is
    always the shell chosen, as a login shell: under WSL, on macOS, on Linux
    and on any other platform. *)
Theorem detectShell_honours_user_shell (h : Host) (userShell : jstring) :
  platform h <> str "win32" ->
  getenv h (str "SHELL") = Some userShell ->
  userShell <> [] ->
  existsSync h userShell = true ->
  detectShell h = (userShell, [str "--login"]).
Proof.
  intros Hplat Henv Hne Hex. unfold detectShell. rewrite Henv.
  destruct userShell as [|c r]; [congruence|]. simpl or_else. rewrite Hex.
  destruct (decide (platform h = str "linux")); [destruct (isWSL h)|];
    destruct (decide (platform h = str "win32")); try contradiction;
    destruct (decide (platform h = str "darwin")); reflexivity.
Qed.

Lemma detectShell_honours_user_shell_witness :
  let h := mkHost (str "darwin")
             (fun name => if decide (name = str "SHELL") then Some (str "/opt/fish") else None)
             (str "/Users/dev")
             (fun p => bool_decide (p = str "/opt/fish"))
             (fun _ => StatThrows) (fun _ => Thrown) in
  detectShell h = (str "/opt/fish", [str "--login"]).
Proof.
  apply detectShell_honours_user_shell.
  - discriminate.
  - reflexivity.
  - discriminate.
  - reflexivity.
Defined.

(** X14: what [detectShell] can return, branch by branch.  Under WSL
    (platform [linux] and [isWSL]) and on macOS the arguments are [--login]
    and the shell exists on the host or is the untested last resort
    [/bin/bash]; on macOS that last resort is reached only when [/bin/zsh]
    does not exist.  On Windows there are no arguments, the [SHELL] variable
    is not read, and the shell is PowerShell 7 when it exists, else Windows
    PowerShell when it exists, else the untested [cmd.exe].  On every other
    platform the shell exists and comes with [--login], or it is the
    untested last resort [/bin/sh] without arguments, reached only when
    [/bin/bash] does not exist. *)
Theorem detectShell_result (h : Host) :
  let sh := fst (detectShell h) in
  let args := snd (detectShell h) in
  let pwshCore := str "C:\Program Files\PowerShell\7\pwsh.exe" in
  let pwsh := str "C:\Windows\System32\WindowsPowerShell\v1.0\powershell.exe" in
  (platform h = str "linux" -> isWSL h = true ->
   args = [str "--login"] /\
   (existsSync h sh = true \/ sh = str "/bin/bash")) /\
  (platform h = str "win32" ->
   args = [] /\
   ((sh = pwshCore /\ existsSync h pwshCore = true) \/
    (sh = pwsh /\ existsSync h pwshCore = false /\ existsSync h pwsh = true) \/
    (sh = str "cmd.exe" /\ existsSync h pwshCore = false /\ existsSync h pwsh = false))) /\
  (platform h = str "darwin" ->
   args = [str "--login"] /\
   (existsSync h sh = true \/
    (sh = str "/bin/bash" /\ existsSync h (str "/bin/zsh") = false))) /\
  ((platform h = str "linux" -> isWSL h = false) ->
   platform h <> str "win32" -> platform h <> str "darwin" ->
   (existsSync h sh = true /\ args = [str "--login"]) \/
   (sh = str "/bin/sh" /\ args = [] /\ existsSync h (str "/bin/bash") = false)).
Proof.
  unfold detectShell, login.
  destruct (decide (platform h = str "linux")) as [Hl|Hl];
    [destruct (isWSL h) eqn:Hwsl|];
    destruct (decide (platform h = str "win32")) as [Hw|Hw];
    try (rewrite Hl in Hw; discriminate Hw);
    destruct (decide (platform h = str "darwin")) as [Hd|Hd];
    try (rewrite Hl in Hd; discriminate Hd);
    try (rewrite Hw in Hd; discriminate Hd);
    repeat match goal with
           | |- context [match getenv h ?k with _ => _ end] =>
               destruct (getenv h k) as [[|? ?]|]; cbn [or_else]
           | |- context [if existsSync h ?p then _ else _] =>
               destruct (existsSync h p) eqn:?
           end;
    cbn [fst snd];
    (split; [intros Hp Hq; try contradiction; try discriminate Hq;
             try (rewrite Hw in Hp; discriminate Hp);
             try (rewrite Hd in Hp; discriminate Hp); auto|]);
    (split; [intros Hp; try contradiction; try (rewrite Hl in Hp; discriminate Hp);
             try (rewrite Hd in Hp; discriminate Hp); auto 10|]);
    (split; [intros Hp; try contradiction; try (rewrite Hl in Hp; discriminate Hp);
             try (rewrite Hw in Hp; discriminate Hp); auto 10|]);
    intros Hp Hq Hr; try contradiction;
    try (specialize (Hp Hl); discriminate Hp); auto 10.
Qed.

(** * Shutdown *)

(** One registry key of [cleanup]. *)
Lemma cleanup_entry_fields
    (ptyKill : pty_handle -> completion unit) (st : Service) (sessionId : jstring) :
  objs (cleanup_entry ptyKill st sessionId) = objs st /\
  dataCallbacks (cleanup_entry ptyKill st sessionId) = dataCallbacks st /\
  exitCallbacks (cleanup_entry ptyKill st sessionId) = exitCallbacks st /\
  match getSession sessionId st with
  | Some (_, session) =>
      sessions (cleanup_entry ptyKill st sessionId) = delete sessionId (sessions st) /\
      timers (cleanup_entry ptyKill st sessionId) =
        match flushTimeout session with
        | Some t => delete t (timers st)
        | None => timers st
        end /\
      effects (cleanup_entry ptyKill st sessionId) =
        effects st ++ match ptyKill (pty session) with
                      | Normal _ => [PtyKill (pty session) None]
                      | Thrown => []
                      end
  | None => cleanup_entry ptyKill st sessionId = st
  end.
Proof.
  unfold cleanup_entry.
  destruct (getSession sessionId st) as [[l session]|]; [|auto].
  destruct (flushTimeout session), (ptyKill (pty session)); simpl;
    rewrite ?app_nil_r; auto 10.
Qed.

Lemma getSession_after_cleanup_entry
    (ptyKill : pty_handle -> completion unit) (st : Service) (sessionId other : jstring) :
  getSession other (cleanup_entry ptyKill st sessionId) =
  if decide (other = sessionId)
  then match getSession sessionId st with
       | Some _ => None
       | None => getSession other st
       end
  else getSession other st.
Proof.
  destruct (cleanup_entry_fields ptyKill st sessionId) as (Ho & _ & _ & H).
  destruct (getSession sessionId st) as [[l session]|] eqn:Hget.
  - destruct H as (Hs & _). unfold getSession at 1. rewrite Hs, Ho.
    destruct (decide (other = sessionId)) as [->|Hne].
    + rewrite lookup_delete_eq. reflexivity.
    + rewrite lookup_delete_ne by congruence. reflexivity.
  - rewrite H. destruct (decide (other = sessionId)); reflexivity.
Qed.

Lemma cleanup_entries_fields (ptyKill : pty_handle -> completion unit) (order : list jstring) :
  forall st : Service,
  let st' := fold_left (cleanup_entry ptyKill) order st in
  objs st' = objs st /\
  dataCallbacks st' = dataCallbacks st /\
  exitCallbacks st' = exitCallbacks st /\
  (forall sid x, getSession sid st' = Some x -> getSession sid st = Some x) /\
  (forall sid, sid ∈ order -> getSession sid st' = None) /\
  (forall sid l, sessions st' !! sid = Some l -> sessions st !! sid = Some l) /\
  (forall t k, timers st' !! t = Some k -> timers st !! t = Some k) /\
  (forall t,
     (forall sid l s, getSession sid st = Some (l, s) -> flushTimeout s <> Some t) ->
     timers st' !! t = timers st !! t) /\
  (forall sid l s t,
     sid ∈ order -> getSession sid st = Some (l, s) -> flushTimeout s = Some t ->
     timers st' !! t = None) /\
  exists kills,
    effects st' = effects st ++ kills /\
    Forall (fun e => exists p, e = PtyKill p None) kills.
Proof.
  induction order as [|sid0 order IH]; intros st st'.
  { subst st'. simpl.
    split; [reflexivity|]. split; [reflexivity|]. split; [reflexivity|].
    split; [auto|]. split; [intros sid Hin; inversion Hin|].
    split; [auto|]. split; [auto|]. split; [auto|].
    split; [intros sid l s t Hin; inversion Hin|].
    exists []. rewrite app_nil_r. auto. }
  subst st'. change (fold_left (cleanup_entry ptyKill) (sid0 :: order) st)
    with (fold_left (cleanup_entry ptyKill) order (cleanup_entry ptyKill st sid0)).
  set (st1 := cleanup_entry ptyKill st sid0).
  destruct (IH st1) as (Ho & Hd & He & Hsub & Hgone & Hsess & Hmono & Hkeep & Hcut & kills & Heff & Hkills).
  destruct (cleanup_entry_fields ptyKill st sid0) as (Ho1 & Hd1 & He1 & H1).
  fold st1 in Ho1, Hd1, He1, H1.
  pose proof (getSession_after_cleanup_entry ptyKill st sid0) as Hget1. fold st1 in Hget1.
  assert (Hsub1 : forall sid x, getSession sid st1 = Some x -> getSession sid st = Some x).
  { intros sid x Hx. rewrite Hget1 in Hx.
    destruct (decide (sid = sid0)) as [->|]; [|exact Hx].
    destruct (getSession sid0 st); [discriminate|exact Hx]. }
  assert (Hsess1 : forall sid l, sessions st1 !! sid = Some l -> sessions st !! sid = Some l).
  { intros sid l Hx. destruct (getSession sid0 st) as [[l0 s0]|].
    - destruct H1 as (Hs1 & _). rewrite Hs1 in Hx.
      apply lookup_delete_Some in Hx as [_ Hx]. exact Hx.
    - rewrite H1 in Hx. exact Hx. }
  assert (Hmono1 : forall t k, timers st1 !! t = Some k -> timers st !! t = Some k).
  { intros t k Hx. destruct (getSession sid0 st) as [[l0 s0]|].
    - destruct H1 as (_ & Ht1 & _). rewrite Ht1 in Hx.
      destruct (flushTimeout s0); [|exact Hx].
      apply lookup_delete_Some in Hx as [_ Hx]. exact Hx.
    - rewrite H1 in Hx. exact Hx. }
  split; [congruence|]. split; [congruence|]. split; [congruence|].
  split; [auto|]. split.
  { intros sid Hin. apply elem_of_cons in Hin as [->|Hin]; [|auto].
    destruct (getSession sid0 (fold_left (cleanup_entry ptyKill) order st1)) as [x|] eqn:Hx; [|reflexivity].
    apply Hsub in Hx. rewrite Hget1 in Hx.
    destruct (decide (sid0 = sid0)); [|congruence].
    destruct (getSession sid0 st) eqn:E; [discriminate|congruence]. }
  split; [auto|]. split; [auto|]. split.
  { intros t Hfree. rewrite Hkeep by (intros sid l s Hs; apply (Hfree sid l s), Hsub1, Hs).
    destruct (getSession sid0 st) as [[l0 s0]|] eqn:E; [|rewrite H1; reflexivity].
    destruct H1 as (_ & Ht1 & _). rewrite Ht1.
    destruct (flushTimeout s0) as [t0|] eqn:Ef; [|reflexivity].
    apply lookup_delete_ne. intros ->. apply (Hfree sid0 l0 s0 E Ef). }
  split.
  { intros sid l s t Hin Hs Hf.
    destruct (decide (sid = sid0)) as [->|Hne].
    - destruct (timers (fold_left (cleanup_entry ptyKill) order st1) !! t) as [k|] eqn:Hk; [|reflexivity].
      apply Hmono in Hk. rewrite Hs in H1. destruct H1 as (_ & Ht1 & _).
      rewrite Ht1, Hf, lookup_delete_eq in Hk. discriminate.
    - apply elem_of_cons in Hin as [->|Hin]; [congruence|].
      apply (Hcut sid l s t Hin); [|exact Hf].
      rewrite Hget1. destruct (decide (sid = sid0)); [congruence|exact Hs]. }
  destruct (getSession sid0 st) as [[l0 s0]|].
  - destruct H1 as (_ & _ & Heff1). rewrite Heff, Heff1, <- app_assoc.
    eexists. split; [reflexivity|]. apply Forall_app. split; [|exact Hkills].
    destruct (ptyKill (pty s0)); [constructor; [eauto|constructor]|constructor].
  - exists kills. split; [rewrite Heff, H1; reflexivity|exact Hkills].
Qed.

Lemma visited_keys_cover (precedence : list jstring) (st : Service) (sid : jstring) :
  is_Some (sessions st !! sid) -> sid ∈ visited_keys precedence st.
Proof.
  intros [l Hl]. unfold visited_keys. apply elem_of_app.
  destruct (decide (sid ∈ precedence)) as [Hin|Hout].
  - left. apply list_elem_of_filter. split; [eauto|exact Hin].
  - right. apply list_elem_of_filter. split; [exact Hout|].
    apply list_elem_of_fmap. exists (sid, l). split; [reflexivity|].
    apply elem_of_map_to_list. exact Hl.
Qed.

Lemma visited_keys_registered (precedence : list jstring) (st : Service) (sid : jstring) :
  sid ∈ visited_keys precedence st -> is_Some (sessions st !! sid).
Proof.
  unfold visited_keys. intros H. apply elem_of_app in H as [H|H].
  - apply list_elem_of_filter in H as [H _]. exact H.
  - apply list_elem_of_filter in H as [_ H].
    apply list_elem_of_fmap in H as ([k l] & -> & H).
    apply elem_of_map_to_list in H. simpl. eauto.
Qed.

Example cleanup_without_precedence :
  let st := run [Output 0%nat (str "abc"); Resize (Normal tt) sample_id 100 30 true]
              sample_service in
  let st' := cleanup (fun _ => Thrown) [] st in
  visited_keys [] st = [sample_id] /\
  sessions st' = ∅ /\
  timers st' !! 0%nat = None /\
  timers st' !! 1%nat = Some (SettleTask 0%nat) /\
  effects st' = effects st.
Proof.
  split; [vm_compute; reflexivity|].
  split; [vm_compute; reflexivity|].
  split; [vm_compute; reflexivity|].
  split; vm_compute; reflexivity.
Qed.

(** X15: [cleanup] visits every registry key, each key that is registered
    and no other.  In a state in which every registry entry refers to a
    session object, as in every state the service reaches, the registry is
    empty afterwards; for every session that was registered [pty.kill] has
    been tried (an exception is swallowed) and its flush timer is
    disarmed.  Nothing else is cancelled: a timer that is not the flush
    timer of a registered session, such as a pending resize-settle timer,
    is still armed.  The session objects and the subscriber sets are as
    before, and no subscriber is called. *)
Theorem cleanup_empties_registry
    (ptyKill : pty_handle -> completion unit) (precedence : list jstring) (st : Service) :
  (forall sid l, sessions st !! sid = Some l -> is_Some (objs st !! l)) ->
  let st' := cleanup ptyKill precedence st in
  (forall sid, sid ∈ visited_keys precedence st <-> is_Some (sessions st !! sid)) /\
  sessions st' = ∅ /\
  objs st' = objs st /\
  dataCallbacks st' = dataCallbacks st /\
  exitCallbacks st' = exitCallbacks st /\
  (forall sid l s t,
     getSession sid st = Some (l, s) -> flushTimeout s = Some t ->
     timers st' !! t = None) /\
  (forall t,
     (forall sid l s, getSession sid st = Some (l, s) -> flushTimeout s <> Some t) ->
     timers st' !! t = timers st !! t) /\
  exists kills,
    effects st' = effects st ++ kills /\
    Forall (fun e => exists p, e = PtyKill p None) kills.
Proof.
  intros Hall st'.
  destruct (cleanup_entries_fields ptyKill (visited_keys precedence st) st)
    as (Ho & Hd & He & _ & Hgone & Hsess & _ & Hkeep & Hcut & Hkills).
  fold (cleanup ptyKill precedence st) in Ho, Hd, He, Hgone, Hsess, Hkeep, Hcut, Hkills.
  fold st' in Ho, Hd, He, Hgone, Hsess, Hkeep, Hcut, Hkills.
  split.
  { intros sid. split;
      [apply visited_keys_registered|apply visited_keys_cover]. }
  split.
  { apply map_eq. intros sid. rewrite lookup_empty.
    destruct (sessions st' !! sid) as [l|] eqn:Hl; [|reflexivity].
    pose proof (Hsess sid l Hl) as Hreg. destruct (Hall sid l Hreg) as [s Hs].
    pose proof (Hgone sid (visited_keys_cover precedence st sid (mk_is_Some _ _ Hreg)))
      as Hnone.
    unfold getSession in Hnone. rewrite Hl, Ho, Hs in Hnone. discriminate. }
  repeat (split; [assumption|]). split.
  { intros sid l s t Hget Hf.
    destruct (getSession_Some _ _ _ _ Hget) as [Hs _].
    exact (Hcut sid l s t (visited_keys_cover precedence st sid (mk_is_Some _ _ Hs))
             Hget Hf). }
  split; assumption.
Qed.

Lemma cleanup_empties_registry_witness :
  let st := run [Output 0%nat (str "abc"); Resize (Normal tt) sample_id 100 30 true]
              sample_service in
  let st' := cleanup (fun _ => Thrown) [] st in
  sessions st' = ∅ /\
  timers st' !! 0%nat = None /\
  timers st' !! 1%nat = Some (SettleTask 0%nat) /\
  effects st' = effects st.
Proof.
  intros st st'.
  destruct (cleanup_empties_registry (fun _ => Thrown) [] st)
    as (_ & Hs & _ & _ & _ & Hcut & Hkeep & _).
  - intros sid l Hl.
    assert (Hreg : sessions st = <[sample_id := 0%nat]> ∅) by (vm_compute; reflexivity).
    rewrite Hreg in Hl. apply lookup_insert_Some in Hl as [[_ <-]|[_ Hl]].
    + vm_compute. eauto.
    + rewrite lookup_empty in Hl. discriminate.
  - split; [exact Hs|]. split.
    + apply (Hcut sample_id 0%nat
               (mkSession sample_id 11%nat (str "/home/dev") 0 (str "/bin/sh")
                  (str "abc") (str "abc") (Some 0%nat) true (Some 1%nat)) 0%nat);
        [vm_compute; reflexivity|reflexivity].
    + split; [|vm_compute; reflexivity]. vm_compute. reflexivity.
Defined.

(** * Invariants of reachable states *)

(** The parts of the state a [createSession] call changes. *)
Lemma createSession_fields (inp : CreateInput) (st : Service) :
  let st' := snd (createSession inp st) in
  st' = st \/
  exists session,
    outputBuffer session = [] /\ flushTimeout session = None /\
    resizeDebounceTimeout session = None /\
    objs st' = <[next_loc st := session]> (objs st) /\
    sessions st' = <[id session := next_loc st]> (sessions st) /\
    timers st' = timers st /\
    next_timer st' = next_timer st /\
    next_loc st' = S (next_loc st).
Proof.
  unfold createSession.
  destruct (num_ge (Num (getSessionCount st)) (maxSessions st)); [left; reflexivity|].
  destruct (detectShell (host inp)) as [detectedShell shellArgs].
  destruct (resolveWorkingDirectory (host inp) (opt_cwd (options inp))) as [dir|];
    [|left; reflexivity].
  destruct (spawn inp) as [p|]; [|left; reflexivity].
  right. eexists.
  cbn [snd alloc set_sessions perform objs sessions timers next_timer next_loc].
  repeat split; reflexivity.
Qed.

Lemma step_allocated (e : event) (st : Service) :
  objects_allocated st -> objects_allocated (step e st).
Proof.
  intros Ha. destruct e; simpl; unfold_ops; split_cases; try exact Ha;
    session_facts; intros l' s' Hl'; simpl in *; lookup_cases Hl';
    try (apply Ha in Hl'; lia); try lia;
    match goal with
    | H : objs _ !! ?l = Some _ |- (?l < _)%nat => apply Ha in H; lia
    end.
Qed.

Lemma step_registry (e : event) (st : Service) :
  objects_allocated st -> registry_consistent st -> registry_consistent (step e st).
Proof.
  intros Ha Hr. destruct e.
  { simpl. destruct (createSession_fields inp st) as [->|(s & _ & _ & _ & Ho & Hs & _)];
      [exact Hr|].
    intros sid l Hl. rewrite Hs in Hl. rewrite Ho.
    apply lookup_insert_Some in Hl as [[<- <-]|[Hne Hl]].
    - exists s. rewrite lookup_insert_eq. auto.
    - destruct (Hr _ _ Hl) as (s0 & Hs0 & Hid0). exists s0.
      rewrite lookup_insert_ne; [auto|]. apply Ha in Hs0. lia. }
  all: simpl; unfold_ops; split_cases; try exact Hr;
    session_facts; intros sid l' Hl'; simpl in *; lookup_cases Hl';
    try (destruct (Hr _ _ Hl') as (s0 & Hs0 & Hid0));
    goal_lookup; simpl;
    try (eexists; split; [reflexivity|]; simpl; congruence);
    try (eexists; split; [eassumption|]; simpl; congruence).
Qed.

Lemma step_tracked (e : event) (st : Service) :
  objects_allocated st -> timers_tracked st -> timers_tracked (step e st).
Proof.
  intros Ha Ht. destruct e.
  { simpl. destruct (createSession_fields inp st)
      as [->|(s & _ & _ & _ & Ho & _ & Htm & Hnt & _)]; [exact Ht|].
    intros t k Hk. rewrite Htm in Hk. rewrite Hnt. destruct (Ht t k Hk) as [Hlt Hown].
    split; [exact Hlt|]. unfold owns in *. rewrite Ho.
    destruct k; destruct Hown as (s0 & Hs0 & Hh0); exists s0;
      (rewrite lookup_insert_ne; [auto|]; apply Ha in Hs0; lia). }
  all: simpl; unfold_ops; split_cases; try exact Ht;
    session_facts; intros t' k' Hk'; simpl in *; lookup_cases Hk';
    owner_facts Ht; (split; [simpl; lia|]); simpl;
    goal_lookup; simpl;
    try (eexists; split; [reflexivity|]; simpl; congruence);
    try (eexists; split; [eassumption|]; simpl; congruence).
Qed.

Lemma step_handles (e : event) (st : Service) :
  handles_issued st -> handles_issued (step e st).
Proof.
  intros Hh. destruct e.
  { simpl. destruct (createSession_fields inp st)
      as [->|(s & _ & Hf & Hr & Ho & _ & Htm & Hnt & _)]; [exact Hh|].
    intros l s0 Hs0. rewrite Ho in Hs0. rewrite Htm, Hnt.
    apply lookup_insert_Some in Hs0 as [[<- <-]|[Hne Hs0]].
    - rewrite Hf, Hr. split; intros t H; discriminate H.
    - exact (Hh _ _ Hs0). }
  all: simpl; unfold_ops; split_cases; try exact Hh;
    session_facts; intros l' s' Hs'; simpl in *; lookup_cases Hs'; simpl;
    try congruence; handle_facts Hh;
    (split; [intros ? Hx|intros ? Hx; split; [|intros ? Hk; lookup_cases Hk]]);
    simpl in *; simplify_eq; try lia; use_handles;
    try lia; try congruence; eauto.
Qed.

Lemma slice_rest_nonempty (s : jstring) :
  (OUTPUT_BATCH_SIZE <? Z.of_nat (length s)) = true ->
  slice s OUTPUT_BATCH_SIZE None <> [].
Proof.
  intros H. apply Z.ltb_lt in H. rewrite slice_suffix by (unfold OUTPUT_BATCH_SIZE; lia).
  intros E. apply (f_equal length) in E. rewrite length_drop in E.
  unfold OUTPUT_BATCH_SIZE in *. cbn [length] in E. lia.
Qed.

Lemma app_nonempty_r (a b : jstring) : b <> [] -> a ++ b <> [].
Proof. intros Hb E. apply app_eq_nil in E as [_ E]. contradiction. Qed.

Lemma step_flush_live (e : event) (st : Service) :
  nonempty_output e ->
  timers_tracked st -> handles_issued st ->
  flush_live st -> flush_live (step e st).
Proof.
  intros He Ht Hh Hl. destruct e.
  { simpl. destruct (createSession_fields inp st)
      as [->|(s & _ & Hf & Hr & Ho & _ & Htm & Hnt & _)]; [exact Hl|].
    intros l s0 t Hs0 Hf0. rewrite Ho in Hs0. rewrite Htm.
    apply lookup_insert_Some in Hs0 as [[<- <-]|[Hne Hs0]]; [congruence|].
    exact (Hl _ _ _ Hs0 Hf0). }
  all: simpl in *; unfold_ops; split_cases; try exact Hl;
    session_facts; intros l' s' t' Hs' Hf'; simpl in *; lookup_cases Hs'; simpl in *;
    try congruence; simplify_eq; handle_facts Hh; live_facts Hl; owner_facts Ht;
    use_handles;
    (split; [auto using slice_rest_nonempty, app_nonempty_r|]);
    timer_lookup; try reflexivity; try assumption; try clash.
Qed.

Lemma step_pending (e : event) (st : Service) :
  nonempty_output e ->
  registry_consistent st ->
  pending_scheduled st -> pending_scheduled (step e st).
Proof.
  intros He Hr Hp. destruct e.
  { simpl. destruct (createSession_fields inp st)
      as [->|(s & Hb & Hf & _ & Ho & Hs & _)]; [exact Hp|].
    intros sid l s0 Hl0 Hs0 Hne. rewrite Ho in Hs0. rewrite Hs in Hl0.
    apply lookup_insert_Some in Hs0 as [[<- <-]|[Hne0 Hs0]]; [congruence|].
    apply lookup_insert_Some in Hl0 as [[<- <-]|[Hne1 Hl0]]; [congruence|].
    exact (Hp _ _ _ Hl0 Hs0 Hne). }
  all: simpl in *; unfold_ops; split_cases; try exact Hp;
    session_facts; intros sid' l' s' Hl' Hs' Hne'; simpl in *;
    lookup_cases Hl'; lookup_cases Hs'; simpl in *;
    try congruence; simplify_eq; eauto;
    repeat match goal with
           | H : sessions _ !! _ = Some _ |- _ =>
               let s := fresh "s" in
               destruct (Hr _ _ H) as (s & ? & ?); revert H
           end; intros; simplify_eq; congruence.
Qed.

Lemma newService_invariants (v : option jstring) :
  objects_allocated (newService v) /\ registry_consistent (newService v) /\
  timers_tracked (newService v) /\ handles_issued (newService v) /\
  flush_live (newService v) /\ pending_scheduled (newService v).
Proof.
  split; [intros l s H; simpl in H; rewrite lookup_empty in H; discriminate|].
  split; [intros sid l H; simpl in H; rewrite lookup_empty in H; discriminate|].
  split; [intros t k H; simpl in H; rewrite lookup_empty in H; discriminate|].
  split; [intros l s H; simpl in H; rewrite lookup_empty in H; discriminate|].
  split; [intros l s t H; simpl in H; rewrite lookup_empty in H; discriminate|].
  intros sid l s H. simpl in H. rewrite lookup_empty in H. discriminate.
Qed.

Lemma run_invariants (es : list event) :
  forall st : Service,
  objects_allocated st -> registry_consistent st ->
  timers_tracked st -> handles_issued st ->
  objects_allocated (run es st) /\ registry_consistent (run es st) /\
  timers_tracked (run es st) /\ handles_issued (run es st).
Proof.
  induction es as [|e es IH]; intros st Ha Hr Ht Hh; [auto|].
  simpl. apply IH;
    auto using step_allocated, step_registry, step_tracked, step_handles.
Qed.

Lemma run_live (es : list event) :
  forall st : Service,
  Forall nonempty_output es ->
  objects_allocated st -> registry_consistent st ->
  timers_tracked st -> handles_issued st ->
  flush_live st -> pending_scheduled st ->
  flush_live (run es st) /\ pending_scheduled (run es st).
Proof.
  induction es as [|e es IH]; intros st Hes Ha Hr Ht Hh Hl Hp; [auto|].
  apply Forall_cons in Hes as [He Hes]. simpl. apply IH;
    auto using step_allocated, step_registry, step_tracked, step_handles,
      step_flush_live, step_pending.
Qed.

(** X16: in every state the service reaches from a new instance, each
    armed timer belongs to a session object that holds the timer's handle
    in the matching field; hence a session never has two flush timers
    armed, nor two settle timers, whatever the interleaving of calls,
    output, exits and timer firings.  Handles are issued in increasing
    order, so a new handle never names an armed timer. *)
Theorem timers_belong_to_sessions (v : option jstring) (es : list event) :
  let st := run es (newService v) in
  (forall t l, timers st !! t = Some (FlushTask l) ->
     exists s, objs st !! l = Some s /\ flushTimeout s = Some t) /\
  (forall t l, timers st !! t = Some (SettleTask l) ->
     exists s, objs st !! l = Some s /\ resizeDebounceTimeout s = Some t) /\
  (forall l t1 t2, timers st !! t1 = Some (FlushTask l) ->
     timers st !! t2 = Some (FlushTask l) -> t1 = t2) /\
  (forall l t1 t2, timers st !! t1 = Some (SettleTask l) ->
     timers st !! t2 = Some (SettleTask l) -> t1 = t2) /\
  (forall t k, timers st !! t = Some k -> (t < next_timer st)%nat).
Proof.
  intros st.
  destruct (newService_invariants v) as (Ha & Hr & Ht & Hh & _).
  destruct (run_invariants es (newService v) Ha Hr Ht Hh) as (_ & _ & Ht' & _).
  fold st in Ht'.
  assert (Hf : forall t l, timers st !! t = Some (FlushTask l) ->
                 exists s, objs st !! l = Some s /\ flushTimeout s = Some t)
    by (intros t l H; exact (proj2 (Ht' t _ H))).
  assert (Hs : forall t l, timers st !! t = Some (SettleTask l) ->
                 exists s, objs st !! l = Some s /\ resizeDebounceTimeout s = Some t)
    by (intros t l H; exact (proj2 (Ht' t _ H))).
  split; [exact Hf|]. split; [exact Hs|]. split.
  { intros l t1 t2 H1 H2.
    destruct (Hf _ _ H1) as (s1 & Hs1 & E1), (Hf _ _ H2) as (s2 & Hs2 & E2). congruence. }
  split.
  { intros l t1 t2 H1 H2.
    destruct (Hs _ _ H1) as (s1 & Hs1 & E1), (Hs _ _ H2) as (s2 & Hs2 & E2). congruence. }
  intros t k H. exact (proj1 (Ht' t k H)).
Qed.

(** X17: in every state the service reaches from a new instance, a
    registry key refers to a session object whose [id] is that key, so
    [getSession] on a registered id never comes back empty, and two keys
    never share a session object. *)
Theorem registry_entries_are_sessions (v : option jstring) (es : list event) :
  let st := run es (newService v) in
  (forall sid l, sessions st !! sid = Some l ->
     exists s, getSession sid st = Some (l, s) /\ id s = sid) /\
  (forall sid1 sid2 l, sessions st !! sid1 = Some l ->
     sessions st !! sid2 = Some l -> sid1 = sid2) /\
  (forall sid, getSession sid st = None <-> sessions st !! sid = None).
Proof.
  intros st.
  destruct (newService_invariants v) as (Ha & Hr & Ht & Hh & _).
  destruct (run_invariants es (newService v) Ha Hr Ht Hh) as (_ & Hr' & _).
  fold st in Hr'.
  split.
  { intros sid l H. destruct (Hr' _ _ H) as (s & Hs & Hid).
    exists s. split; [apply getSession_intro; assumption|exact Hid]. }
  split.
  { intros sid1 sid2 l H1 H2.
    destruct (Hr' _ _ H1) as (s1 & Hs1 & E1), (Hr' _ _ H2) as (s2 & Hs2 & E2). congruence. }
  intros sid. split.
  - intros Hnone. destruct (sessions st !! sid) as [l|] eqn:E; [|reflexivity].
    destruct (Hr' _ _ E) as (s & Hs & _).
    rewrite (getSession_intro sid st l s E Hs) in Hnone. discriminate.
  - apply getSession_unregistered.
Qed.

(** X18: as long as every output event carries at least one code unit,
    pending output is always on its way.  In every state reached from a new
    instance, a registered session with a non-empty pending buffer has its
    flush timer armed; a flush timer is armed only for a session with
    something pending; and a session with nothing pending holds no flush
    handle. *)
Theorem pending_output_is_scheduled (v : option jstring) (es : list event) :
  Forall nonempty_output es ->
  let st := run es (newService v) in
  (forall sid l s, getSession sid st = Some (l, s) -> outputBuffer s <> [] ->
     exists t, flushTimeout s = Some t /\ timers st !! t = Some (FlushTask l)) /\
  (forall t l, timers st !! t = Some (FlushTask l) ->
     exists s, objs st !! l = Some s /\ outputBuffer s <> []) /\
  (forall l s, objs st !! l = Some s -> outputBuffer s = [] -> flushTimeout s = None).
Proof.
  intros Hes st.
  destruct (newService_invariants v) as (Ha & Hr & Ht & Hh & Hl & Hp).
  destruct (run_invariants es (newService v) Ha Hr Ht Hh) as (_ & _ & Ht' & _).
  destruct (run_live es (newService v) Hes Ha Hr Ht Hh Hl Hp) as (Hl' & Hp').
  fold st in Ht', Hl', Hp'.
  split.
  { intros sid l s Hget Hne. destruct (getSession_Some _ _ _ _ Hget) as [Hs Ho].
    destruct (Hp' sid l s Hs Ho Hne) as [t Hf].
    exists t. split; [exact Hf|]. exact (proj2 (Hl' l s t Ho Hf)). }
  split.
  { intros t l H. destruct (proj2 (Ht' t _ H)) as (s & Hs & Hf).
    exists s. split; [exact Hs|]. exact (proj1 (Hl' l s t Hs Hf)). }
  intros l s Ho Hnil. destruct (flushTimeout s) as [t|] eqn:Hf; [|reflexivity].
  destruct (Hl' l s t Ho Hf) as [Hne _]. contradiction.
Qed.

Lemma pending_output_is_scheduled_witness :
  let es := [OnData 7%nat; Create (sample_input "1700000000000" 11%nat);
             Output 0%nat (str "abc"); Resize (Normal tt) sample_id 100 30 true;
             Timer 0%nat; Exit 0%nat 0] in
  let st := run es (newService None) in
  (forall sid l s, getSession sid st = Some (l, s) -> outputBuffer s <> [] ->
     exists t, flushTimeout s = Some t /\ timers st !! t = Some (FlushTask l)) /\
  (forall t l, timers st !! t = Some (FlushTask l) ->
     exists s, objs st !! l = Some s /\ outputBuffer s <> []) /\
  (forall l s, objs st !! l = Some s -> outputBuffer s = [] -> flushTimeout s = None).
Proof.
  apply (pending_output_is_scheduled None
           [OnData 7%nat; Create (sample_input "1700000000000" 11%nat);
            Output 0%nat (str "abc"); Resize (Normal tt) sample_id 100 30 true;
            Timer 0%nat; Exit 0%nat 0]).
  repeat constructor. discriminate.
Defined.

(** * Capacity and scrollback over arbitrary runs *)

Lemma step_count (e : event) (st : Service) (C : Z) :
  maxSessions st = Num C ->
  getSessionCount st <= C ->
  getSessionCount (step e st) <= C.
Proof.
  intros HC Hle. destruct e; try (simpl; apply createSession_count; assumption).
  all: simpl; unfold_ops; split_cases; try exact Hle;
    unfold getSessionCount in *; simpl;
    rewrite map_size_delete; split_cases; lia.
Qed.

(** X19: the session limit holds under every event, not only under
    [createSession].  With the limit at [C] and at most [C] sessions
    registered, after any events of the service that leave the limit alone
    (creations, kills, exits, output, timers, subscriptions, rejected
    [setMaxSessions] calls) at most [C] sessions are registered. *)
Theorem capacity_holds_under_all_events (C : Z) (es : list event) (st : Service) :
  maxSessions st = Num C ->
  getSessionCount st <= C ->
  Forall keeps_limit es ->
  getSessionCount (run es st) <= C /\ maxSessions (run es st) = Num C.
Proof.
  revert st. induction es as [|e es IH]; intros st HC Hle Hes; [auto|].
  apply Forall_cons in Hes as [He Hes]. simpl. apply IH; [| |exact Hes].
  - rewrite step_maxSessions. destruct e; try exact HC.
    simpl in He. rewrite He. exact HC.
  - apply step_count; assumption.
Qed.

Lemma capacity_holds_under_all_events_witness :
  let es := [Create (sample_input "1700000000000" 11%nat); SetMax (Num 0);
             Create (sample_input "1700000000001" 12%nat);
             Kill Thrown sample_id; Create (sample_input "1700000000002" 13%nat);
             Create (sample_input "1700000000003" 14%nat)] in
  let st := setMaxSessions (Num 2) (newService None) in
  getSessionCount (run es st) <= 2 /\ maxSessions (run es st) = Num 2.
Proof.
  apply (capacity_holds_under_all_events 2).
  - reflexivity.
  - vm_compute. discriminate.
  - repeat constructor.
Defined.

Lemma step_scrollback_bounded (e : event) (st : Service) :
  scrollback_bounded st -> scrollback_bounded (step e st).
Proof.
  intros Hb. destruct e.
  { simpl. destruct (createSession_fields inp st) as [->|(s & _ & _ & _ & Ho & _)];
      [exact Hb|].
    intros l s0 Hs0. rewrite Ho in Hs0.
    apply lookup_insert_Some in Hs0 as [[<- <-]|[Hne Hs0]]; [|exact (Hb _ _ Hs0)].
    revert Ho. unfold createSession.
    destruct (num_ge (Num (getSessionCount st)) (maxSessions st)).
    { intros Ho. apply (f_equal (fun m => m !! next_loc st)) in Ho.
      rewrite lookup_insert_eq in Ho. exact (Hb _ _ Ho). }
    destruct (detectShell (host inp)) as [detectedShell shellArgs].
    destruct (resolveWorkingDirectory (host inp) (opt_cwd (options inp))) as [dir|];
      [|intros Ho; apply (f_equal (fun m => m !! next_loc st)) in Ho;
        rewrite lookup_insert_eq in Ho; exact (Hb _ _ Ho)].
    destruct (spawn inp) as [p|];
      [|intros Ho; apply (f_equal (fun m => m !! next_loc st)) in Ho;
        rewrite lookup_insert_eq in Ho; exact (Hb _ _ Ho)].
    cbn [snd alloc set_sessions perform objs]. intros Ho.
    apply (f_equal (fun m => m !! next_loc st)) in Ho.
    rewrite !lookup_insert_eq in Ho. injection Ho as <-.
    unfold MAX_SCROLLBACK_SIZE. simpl. lia. }
  all: simpl; unfold_ops; split_cases; try exact Hb;
    session_facts; intros l' s' Hs'; simpl in *; lookup_cases Hs'; simpl;
    try (eapply Hb; eassumption).
  all: try match goal with
           | H : (MAX_SCROLLBACK_SIZE <? _) = false |- _ => apply Z.ltb_ge in H; exact H
           end.
  all: rewrite slice_last by reflexivity; rewrite length_drop;
    unfold MAX_SCROLLBACK_SIZE; lia.
Qed.

Lemma run_scrollback_bounded (es : list event) :
  forall st : Service, scrollback_bounded st -> scrollback_bounded (run es st).
Proof.
  induction es as [|e es IH]; intros st Hb; [exact Hb|].
  simpl. apply IH, step_scrollback_bounded, Hb.
Qed.

(** X20: no scrollback ever exceeds [MAX_SCROLLBACK_SIZE].  In every state
    the service reaches from a new instance, whatever the events, every
    session's scrollback is at most [MAX_SCROLLBACK_SIZE] code units long,
    and so is every non-null answer of [getScrollback], which is never the
    empty string. *)
Theorem scrollback_is_bounded (v : option jstring) (es : list event) :
  let st := run es (newService v) in
  (forall l s, objs st !! l = Some s ->
     Z.of_nat (length (scrollbackBuffer s)) <= MAX_SCROLLBACK_SIZE) /\
  (forall sid sb, getScrollback sid st = Some sb ->
     0 < Z.of_nat (length sb) <= MAX_SCROLLBACK_SIZE).
Proof.
  intros st.
  assert (Hb : scrollback_bounded st).
  { subst st. apply run_scrollback_bounded.
    intros l s H. simpl in H. rewrite lookup_empty in H. discriminate. }
  split; [exact Hb|].
  intros sid sb Hget. unfold getScrollback in Hget.
  destruct (getSession sid st) as [[l s]|] eqn:E; [|discriminate].
  apply getSession_Some in E as [_ Ho]. pose proof (Hb l s Ho) as Hlen.
  destruct (scrollbackBuffer s) as [|c r]; [discriminate|].
  injection Hget as <-. split; [simpl; lia|exact Hlen].
Qed.

(** * Output around resize and kill *)








